(** * The workbook import script [scripts/import_flow_xlsx.py]

    A shallow embedding of the import script of the FACT website
    repository and of the Python library functions it calls, followed by
    the properties of the value normalizer [clean], the idempotency key
    builder [build_idem], the six sheet transformers and the batch upsert
    client [post_rows].

    Conventions of the embedding:
    - a Python [str] is a Rocq [string]; a character stands for the code
      point of the same number (0..255), so texts are over the Latin-1
      range of Unicode and are UTF-8 encoded before hashing;
    - a cell of the workbook holds [None], a [bool], an [int], a [float]
      (a binary64 number, NaN for an empty cell), a [str] or a
      [pd.Timestamp]; a value of a record is one of these as well;
    - a Python [dict] with string keys (a spreadsheet row, an emitted
      record) is a [gmap string pyval];
    - exceptions are the [Raise] outcome of [result]; the network is an
      explicit log of the requests attempted so far, and the transport
      is a function of that log and of the request. *)

From Stdlib Require Import ZArith List String Ascii Bool Lia DecimalString.
From Stdlib Require Import Floats.
From stdpp Require Import gmap strings list fin_maps.

Local Open Scope string_scope.

(** ** [hashlib.sha256]: SHA-256 over 32-bit words held in [Z] *)

Module Sha256.
Local Open Scope Z_scope.

Definition wrap32 (x : Z) : Z := x mod 2 ^ 32.
Definition add32 (x y : Z) : Z := wrap32 (x + y).
Definition not32 (x : Z) : Z := Z.lxor x 0xffffffff.
Definition rotr (n x : Z) : Z :=
  Z.lor (Z.shiftr x n) (wrap32 (Z.shiftl x (32 - n))).

Definition choose (e f g : Z) : Z :=
  Z.lxor (Z.land e f) (Z.land (not32 e) g).
Definition majority (a b c : Z) : Z :=
  Z.lxor (Z.lxor (Z.land a b) (Z.land a c)) (Z.land b c).
Definition big_sigma0 (a : Z) : Z :=
  Z.lxor (Z.lxor (rotr 2 a) (rotr 13 a)) (rotr 22 a).
Definition big_sigma1 (e : Z) : Z :=
  Z.lxor (Z.lxor (rotr 6 e) (rotr 11 e)) (rotr 25 e).
Definition small_sigma0 (w : Z) : Z :=
  Z.lxor (Z.lxor (rotr 7 w) (rotr 18 w)) (Z.shiftr w 3).
Definition small_sigma1 (w : Z) : Z :=
  Z.lxor (Z.lxor (rotr 17 w) (rotr 19 w)) (Z.shiftr w 10).

Definition round_constants : list Z :=
  0x428a2f98 :: 0x71374491 :: 0xb5c0fbcf :: 0xe9b5dba5 ::
  0x3956c25b :: 0x59f111f1 :: 0x923f82a4 :: 0xab1c5ed5 ::
  0xd807aa98 :: 0x12835b01 :: 0x243185be :: 0x550c7dc3 ::
  0x72be5d74 :: 0x80deb1fe :: 0x9bdc06a7 :: 0xc19bf174 ::
  0xe49b69c1 :: 0xefbe4786 :: 0x0fc19dc6 :: 0x240ca1cc ::
  0x2de92c6f :: 0x4a7484aa :: 0x5cb0a9dc :: 0x76f988da ::
  0x983e5152 :: 0xa831c66d :: 0xb00327c8 :: 0xbf597fc7 ::
  0xc6e00bf3 :: 0xd5a79147 :: 0x06ca6351 :: 0x14292967 ::
  0x27b70a85 :: 0x2e1b2138 :: 0x4d2c6dfc :: 0x53380d13 ::
  0x650a7354 :: 0x766a0abb :: 0x81c2c92e :: 0x92722c85 ::
  0xa2bfe8a1 :: 0xa81a664b :: 0xc24b8b70 :: 0xc76c51a3 ::
  0xd192e819 :: 0xd6990624 :: 0xf40e3585 :: 0x106aa070 ::
  0x19a4c116 :: 0x1e376c08 :: 0x2748774c :: 0x34b0bcb5 ::
  0x391c0cb3 :: 0x4ed8aa4a :: 0x5b9cca4f :: 0x682e6ff3 ::
  0x748f82ee :: 0x78a5636f :: 0x84c87814 :: 0x8cc70208 ::
  0x90befffa :: 0xa4506ceb :: 0xbef9a3f7 :: 0xc67178f2 :: nil.

(** The eight working variables a..h. *)
Record regs := Regs {
  ra : Z; rb : Z; rc : Z; rd : Z; re : Z; rf : Z; rg : Z; rh : Z }.

Definition initial_hash : regs :=
  Regs 0x6a09e667 0xbb67ae85 0x3c6ef372 0xa54ff53a
       0x510e527f 0x9b05688c 0x1f83d9ab 0x5be0cd19.

(** Big-endian bytes of [x], [width] of them. *)
Fixpoint be_bytes (width : nat) (x : Z) : list Z :=
  match width with
  | O => nil
  | S w' => Z.shiftr x (8 * Z.of_nat w') mod 256 :: be_bytes w' x
  end.

Definition be_word (bs : list Z) : Z :=
  fold_left (fun acc b => acc * 256 + b) bs 0.

(** Message padding: a one bit, zeros, and the bit length on 64 bits. *)
Definition pad (msg : list Z) : list Z :=
  let n := Z.of_nat (length msg) in
  msg ++ 0x80 :: repeat 0 (Z.to_nat ((55 - n) mod 64)) ++ be_bytes 8 (8 * n).

(** Cut a list into consecutive pieces of [size] elements. *)
Fixpoint pieces {A} (fuel size : nat) (l : list A) : list (list A) :=
  match fuel, l with
  | O, _ | _, nil => nil
  | S fuel', _ => firstn size l :: pieces fuel' size (skipn size l)
  end.

Definition block_words (block : list Z) : list Z :=
  map be_word (pieces 16 4 block).

(** The next word of the message schedule from the 16 preceding ones. *)
Definition next_word (win : list Z) : Z :=
  add32 (add32 (small_sigma1 (nth 14 win 0)) (nth 9 win 0))
        (add32 (small_sigma0 (nth 1 win 0)) (nth 0 win 0)).

Definition round (s : regs) (k w : Z) : regs :=
  let t1 := add32 (add32 (add32 (rh s) (big_sigma1 (re s)))
                         (add32 (choose (re s) (rf s) (rg s)) k)) w in
  let t2 := add32 (big_sigma0 (ra s)) (majority (ra s) (rb s) (rc s)) in
  Regs (add32 t1 t2) (ra s) (rb s) (rc s) (add32 (rd s) t1) (re s) (rf s) (rg s).

Fixpoint rounds (ks : list Z) (win : list Z) (s : regs) : regs :=
  match ks with
  | nil => s
  | k :: ks' =>
      rounds ks' (tl win ++ next_word win :: nil) (round s k (hd 0 win))
  end.

Definition compress (h : regs) (block : list Z) : regs :=
  let s := rounds round_constants (block_words block) h in
  Regs (add32 (ra h) (ra s)) (add32 (rb h) (rb s))
       (add32 (rc h) (rc s)) (add32 (rd h) (rd s))
       (add32 (re h) (re s)) (add32 (rf h) (rf s))
       (add32 (rg h) (rg s)) (add32 (rh h) (rh s)).

Definition digest_words (msg : list Z) : list Z :=
  let padded := pad msg in
  let h := fold_left compress (pieces (length padded) 64 padded) initial_hash in
  ra h :: rb h :: rc h :: rd h :: re h :: rf h :: rg h :: rh h :: nil.

Definition hex_digit (d : Z) : ascii :=
  if d <? 10 then ascii_of_N (Z.to_N (48 + d)) else ascii_of_N (Z.to_N (87 + d)).

Fixpoint hex_of_bytes (bs : list Z) : string :=
  match bs with
  | nil => EmptyString
  | b :: bs' => String (hex_digit (b / 16)) (String (hex_digit (b mod 16)) (hex_of_bytes bs'))
  end.

(** [hashlib.sha256(data).hexdigest()] *)
Definition hexdigest (msg : list Z) : string :=
  hex_of_bytes (flat_map (be_bytes 4) (digest_words msg)).
End Sha256.

(** ** Python [str] operations used by the script *)

Definition code (c : ascii) : Z := Z.of_N (N_of_ascii c).
Definition chr (n : Z) : ascii := ascii_of_N (Z.to_N n).

(** [str.isspace] on one character, as [str.split()] uses it. *)
Definition is_space (c : ascii) : bool :=
  let n := code c in
  ((9 <=? n) && (n <=? 13) || (28 <=? n) && (n <=? 32)
   || (n =? 133) || (n =? 160))%Z.

(** [str.lower] on one character of the Latin-1 range. *)
Definition lower_char (c : ascii) : ascii :=
  let n := code c in
  if ((65 <=? n) && (n <=? 90)
      || (192 <=? n) && (n <=? 222) && negb (n =? 215))%Z
  then chr (n + 32) else c.

Fixpoint str_filter (p : ascii -> bool) (s : string) : string :=
  match s with
  | EmptyString => EmptyString
  | String c s' => if p c then String c (str_filter p s') else str_filter p s'
  end.

Fixpoint str_map (f : ascii -> ascii) (s : string) : string :=
  match s with
  | EmptyString => EmptyString
  | String c s' => String (f c) (str_map f s')
  end.

(** [''.join(s.split())]: the text without its whitespace. *)
Definition join_split (s : string) : string :=
  str_filter (fun c => negb (is_space c)) s.

(** [s.lower()] *)
Definition lower (s : string) : string := str_map lower_char s.

(** [s[:n]] *)
Fixpoint slice_to (n : nat) (s : string) : string :=
  match n, s with
  | S n', String c s' => String c (slice_to n' s')
  | _, _ => EmptyString
  end.

(** [s[n:]] *)
Fixpoint slice_from (n : nat) (s : string) : string :=
  match n, s with
  | S n', String _ s' => slice_from n' s'
  | _, _ => s
  end.

(** [s.replace(c, r)] for a one-character pattern [c]. *)
Fixpoint replace_char (c : ascii) (r : string) (s : string) : string :=
  match s with
  | EmptyString => EmptyString
  | String x s' =>
      if Ascii.eqb x c then r ++ replace_char c r s'
      else String x (replace_char c r s')
  end.

(** [s.encode('utf-8')] for code points below 256. *)
Fixpoint encode_utf8 (s : string) : list Z :=
  match s with
  | EmptyString => nil
  | String c s' =>
      let n := code c in
      if (n <? 128)%Z then n :: encode_utf8 s'
      else Z.lor 192 (Z.shiftr n 6) :: Z.lor 128 (Z.land n 63) :: encode_utf8 s'
  end.

(** [hashlib.sha256(s.encode('utf-8')).hexdigest()] *)
Definition sha256_hex (s : string) : string := Sha256.hexdigest (encode_utf8 s).

(** ** Exceptions and fallible results *)

Inductive exn : Type :=
| ValueError
| TypeError
| AttributeError
| OverflowError
| RuntimeError (msg : string)
| SystemExit (msg : string).

Inductive result (A : Type) : Type :=
| Ok (a : A)
| Raise (e : exn).
Arguments Ok {A} a.
Arguments Raise {A} e.

Definition rbind {A B} (r : result A) (k : A -> result B) : result B :=
  match r with
  | Ok a => k a
  | Raise e => Raise e
  end.

Definition is_ok {A} (r : result A) : bool :=
  match r with Ok _ => true | Raise _ => false end.

(** ** [datetime.datetime] *)

(** The fields of a [datetime]; [utcoffset] is the offset of an aware
    value in microseconds, [None] for a naive one. *)
Record datetime : Type := Datetime {
  year : Z; month : Z; day : Z;
  hour : Z; minute : Z; second : Z; microsecond : Z;
  utcoffset : option Z }.

Section Calendar.
Local Open Scope Z_scope.

Definition is_leap (y : Z) : bool :=
  (y mod 4 =? 0) && (negb (y mod 100 =? 0) || (y mod 400 =? 0)).

Definition days_in_month (y m : Z) : Z :=
  if m =? 2 then (if is_leap y then 29 else 28)
  else if (m =? 4) || (m =? 6) || (m =? 9) || (m =? 11) then 30
  else 31.

Definition micros_per_day : Z := 86400000000.

(** The range checks of the [datetime] and [timezone] constructors. *)
Definition valid_datetime (d : datetime) : bool :=
  (1 <=? year d) && (year d <=? 9999)
  && (1 <=? month d) && (month d <=? 12)
  && (1 <=? day d) && (day d <=? days_in_month (year d) (month d))
  && (0 <=? hour d) && (hour d <=? 23)
  && (0 <=? minute d) && (minute d <=? 59)
  && (0 <=? second d) && (second d <=? 59)
  && (0 <=? microsecond d) && (microsecond d <=? 999999)
  && match utcoffset d with
     | None => true
     | Some off => (- micros_per_day <? off) && (off <? micros_per_day)
     end.

(** [datetime._days_before_year], [_days_before_month] and [_ymd2ord]:
    the proleptic Gregorian ordinal of a date. *)
Definition days_before_year (y : Z) : Z :=
  let p := y - 1 in p * 365 + p / 4 - p / 100 + p / 400.

Fixpoint days_before_month_aux (y : Z) (months : nat) : Z :=
  match months with
  | O => 0
  | S k => days_before_month_aux y k + days_in_month y (Z.of_nat (S k))
  end.

Definition days_before_month (y m : Z) : Z :=
  days_before_month_aux y (Z.to_nat (m - 1)).

Definition ymd2ord (y m d : Z) : Z :=
  days_before_year y + days_before_month y m + d.

(** The instant an aware [datetime] denotes, in microseconds of UTC,
    and the UTC minute it falls in. *)
Definition utc_micros (d : datetime) : option Z :=
  match utcoffset d with
  | None => None
  | Some off =>
      Some ((ymd2ord (year d) (month d) (day d) * 86400
             + hour d * 3600 + minute d * 60 + second d) * 1000000
            + microsecond d - off)
  end.

Definition utc_minute (d : datetime) : option Z :=
  option_map (fun us => us / 60000000) (utc_micros d).
End Calendar.

(** *** Rendering: [datetime.isoformat] *)

Definition digit_char (d : Z) : ascii := chr (48 + d mod 10).

(** [k] rendered on exactly [n] decimal digits: ["%0nd" % k] for
    [0 <= k < 10^n], which the constructor's range checks guarantee for
    every field below. *)
Fixpoint zero_padded (n : nat) (k : Z) : string :=
  match n with
  | O => EmptyString
  | S n' => zero_padded n' (k / 10) ++ String (digit_char k) EmptyString
  end.

Definition format_time (d : datetime) : string :=
  zero_padded 2 (hour d) ++ ":" ++ zero_padded 2 (minute d) ++ ":"
  ++ zero_padded 2 (second d)
  ++ (if (microsecond d =? 0)%Z then "" else "." ++ zero_padded 6 (microsecond d)).

(** [datetime._format_offset] *)
Definition format_offset (off : option Z) : string :=
  match off with
  | None => ""
  | Some o =>
      let sign := if (o <? 0)%Z then "-" else "+" in
      let a := Z.abs o in
      let hh := (a / 3600000000)%Z in
      let mm := (a mod 3600000000 / 60000000)%Z in
      let ss := (a mod 60000000 / 1000000)%Z in
      let us := (a mod 1000000)%Z in
      sign ++ zero_padded 2 hh ++ ":" ++ zero_padded 2 mm
      ++ (if (ss =? 0)%Z && (us =? 0)%Z then ""
          else ":" ++ zero_padded 2 ss
               ++ (if (us =? 0)%Z then "" else "." ++ zero_padded 6 us))
  end.

(** [d.isoformat()] *)
Definition isoformat (d : datetime) : string :=
  zero_padded 4 (year d) ++ "-" ++ zero_padded 2 (month d) ++ "-"
  ++ zero_padded 2 (day d) ++ "T" ++ format_time d ++ format_offset (utcoffset d).

(** [d.replace(second=0, microsecond=0)] *)
Definition replace_second_microsecond (d : datetime) : datetime :=
  Datetime (year d) (month d) (day d) (hour d) (minute d) 0 0 (utcoffset d).

(** *** Parsing: [datetime.fromisoformat]

    After the reference implementation in [Lib/datetime.py]: the format
    is [YYYY-MM-DD[*HH[:MM[:SS[.fff[fff]]]][+HH:MM[:SS[.ffffff]]]]], the
    one [isoformat] emits.  Numeric fields are runs of decimal digits. *)

Definition is_digit (c : ascii) : bool :=
  ((48 <=? code c) && (code c <=? 57))%Z.

Fixpoint digits_value (acc : Z) (s : string) : option Z :=
  match s with
  | EmptyString => Some acc
  | String c s' =>
      if is_digit c then digits_value (acc * 10 + (code c - 48))%Z s' else None
  end.

(** [int(s)] on a non-empty run of digits. *)
Definition parse_int (s : string) : option Z :=
  match s with
  | EmptyString => None
  | _ => digits_value 0 s
  end.

(** [s[a:b]] *)
Definition slice (a b : nat) (s : string) : string :=
  slice_to (b - a) (slice_from a s).

Definition char_at (i : nat) (s : string) : option ascii := String.get i s.

Definition parse_isoformat_date (dstr : string) : option (Z * Z * Z) :=
  if negb (String.length dstr =? 10)%nat then None else
  match parse_int (slice 0 4 dstr), char_at 4 dstr,
        parse_int (slice 5 7 dstr), char_at 7 dstr,
        parse_int (slice 8 10 dstr) with
  | Some y, Some "-"%char, Some m, Some "-"%char, Some d => Some (y, m, d)
  | _, _, _, _, _ => None
  end.

(** The loop of [_parse_hh_mm_ss_ff] over the components [comp], [comp+1],
    ... up to the seconds: the values read and the unread remainder. *)
Fixpoint parse_hh_mm_ss (left : nat) (tstr : string)
  : option (list Z * string) :=
  match left with
  | O => None
  | S left' =>
      if (String.length tstr <? 2)%nat then None else
      match parse_int (slice_to 2 tstr) with
      | None => None
      | Some v =>
          let rest := slice_from 2 tstr in
          match rest, left' with
          | EmptyString, _ | _, O => Some (v :: nil, rest)
          | String ":" rest', _ =>
              match parse_hh_mm_ss left' rest' with
              | Some (vs, r) => Some (v :: vs, r)
              | None => None
              end
          | String _ _, _ => None
          end
      end
  end.

Definition parse_fraction (rest : string) : option Z :=
  match rest with
  | EmptyString => Some 0%Z
  | String "." frac =>
      match String.length frac, parse_int frac with
      | 3%nat, Some us => Some (us * 1000)%Z
      | 6%nat, Some us => Some us
      | _, _ => None
      end
  | String _ _ => None
  end.

(** [_parse_hh_mm_ss_ff]: hour, minute, second, microsecond. *)
Definition parse_hh_mm_ss_ff (tstr : string) : option (Z * Z * Z * Z) :=
  match parse_hh_mm_ss 3 tstr with
  | None => None
  | Some (vs, rest) =>
      match parse_fraction rest with
      | None => None
      | Some us => Some (nth 0 vs 0%Z, nth 1 vs 0%Z, nth 2 vs 0%Z, us)
      end
  end.

(** [s.find(c)], as an option. *)
Fixpoint find_char (c : ascii) (s : string) : option nat :=
  match s with
  | EmptyString => None
  | String x s' =>
      if Ascii.eqb x c then Some O else option_map S (find_char c s')
  end.

(** [_parse_isoformat_time]: the time fields and the offset. *)
Definition parse_isoformat_time (tstr : string)
  : option (Z * Z * Z * Z * option Z) :=
  if (String.length tstr <? 2)%nat then None else
  let tz_pos := match find_char "-" tstr with
                | Some i => Some i
                | None => find_char "+" tstr
                end in
  let timestr := match tz_pos with Some i => slice_to i tstr | None => tstr end in
  match parse_hh_mm_ss_ff timestr with
  | None => None
  | Some (h, mi, s, us) =>
      match tz_pos with
      | None => Some (h, mi, s, us, None)
      | Some i =>
          let tzstr := slice_from (S i) tstr in
          let n := String.length tzstr in
          if negb ((n =? 5) || (n =? 8) || (n =? 15))%nat then None else
          match parse_hh_mm_ss_ff tzstr with
          | None => None
          | Some (th, tm, tsec, tus) =>
              let td := (((th * 60 + tm) * 60 + tsec) * 1000000 + tus)%Z in
              let sign := match char_at i tstr with
                          | Some "-"%char => (-1)%Z
                          | _ => 1%Z
                          end in
              Some (h, mi, s, us, Some (sign * td)%Z)
          end
      end
  end.

(** [datetime.fromisoformat(s)]; [ValueError] on a malformed string or
    on fields out of range. *)
Definition fromisoformat (date_string : string) : result datetime :=
  let dstr := slice 0 10 date_string in
  let tstr := slice_from 11 date_string in
  match parse_isoformat_date dstr with
  | None => Raise ValueError
  | Some (y, m, d) =>
      let time_components :=
        match tstr with
        | EmptyString => Some (0, 0, 0, 0, None)%Z
        | _ => parse_isoformat_time tstr
        end in
      match time_components with
      | None => Raise ValueError
      | Some (h, mi, s, us, tz) =>
          let dt := Datetime y m d h mi s us tz in
          if valid_datetime dt then Ok dt else Raise ValueError
      end
  end.

(** ** Python values held by spreadsheet cells and record fields

    A [pd.Timestamp] is held as the [datetime] its [to_pydatetime()]
    returns. *)

Inductive pyval : Type :=
| VNone
| VBool (b : bool)
| VInt (n : Z)
| VFloat (f : float)
| VStr (s : string)
| VTimestamp (d : datetime).

(** [bool(v)], the test behind [not v] and [v or w]. *)
Definition truthy (v : pyval) : bool :=
  match v with
  | VNone => false
  | VBool b => b
  | VInt n => negb (n =? 0)%Z
  | VFloat f => negb (PrimFloat.eqb f PrimFloat.zero)
  | VStr s => negb (String.eqb s "")
  | VTimestamp _ => true
  end.

(** [a or b] *)
Definition py_or (a b : pyval) : pyval := if truthy a then a else b.

(** *** The text of a [float] literal, as [float(str)] recognises it *)

(** The whitespace [float] strips from both ends of its argument. *)
Definition is_float_space (c : ascii) : bool :=
  let n := code c in
  ((9 <=? n) && (n <=? 13) || (n =? 32) || (n =? 133) || (n =? 160))%Z.

Fixpoint lstrip (s : string) : string :=
  match s with
  | String c s' => if is_float_space c then lstrip s' else s
  | EmptyString => EmptyString
  end.

Fixpoint rstrip (s : string) : string :=
  match s with
  | EmptyString => EmptyString
  | String c s' =>
      match rstrip s' with
      | EmptyString => if is_float_space c then EmptyString else String c EmptyString
      | r => String c r
      end
  end.

Definition strip (s : string) : string := rstrip (lstrip s).

(** What is left of [s] after the rest [(["_"] digit)*] of a digit part. *)
Fixpoint skip_digits (s : string) : string :=
  match s with
  | String c s' =>
      if is_digit c then skip_digits s'
      else if Ascii.eqb c "_" then
        match s' with
        | String d s'' => if is_digit d then skip_digits s'' else s
        | EmptyString => s
        end
      else s
  | EmptyString => EmptyString
  end.

(** [digitpart ::= digit (["_"] digit)*]: the remainder after it. *)
Definition digitpart (s : string) : option string :=
  match s with
  | String c s' => if is_digit c then Some (skip_digits s') else None
  | EmptyString => None
  end.

Definition skip_sign (s : string) : string :=
  match s with
  | String c s' => if Ascii.eqb c "+" || Ascii.eqb c "-" then s' else s
  | EmptyString => EmptyString
  end.

(** [number ::= [digitpart] "." digitpart | digitpart ["."]] *)
Definition number (s : string) : option string :=
  match digitpart s with
  | Some (String "." r) =>
      match digitpart r with
      | Some r' => Some r'
      | None => Some r
      end
  | Some r => Some r
  | None =>
      match s with
      | String "." r => digitpart r
      | _ => None
      end
  end.

(** [exponent ::= ("e" | "E") [sign] digitpart], optional. *)
Definition exponent (s : string) : option string :=
  match s with
  | String c r =>
      if Ascii.eqb c "e" || Ascii.eqb c "E" then digitpart (skip_sign r)
      else Some s
  | EmptyString => Some EmptyString
  end.

(** Whether [float(s)] accepts the text [s]. *)
Definition is_float_literal (s : string) : bool :=
  let body := lower (skip_sign (strip s)) in
  if String.eqb body "inf" || String.eqb body "infinity" || String.eqb body "nan"
  then true
  else match number body with
       | Some r => match exponent r with
                   | Some EmptyString => true
                   | _ => false
                   end
       | None => false
       end.

(** [int] to [float], rounded to nearest even on 53 bits. *)
Definition float_of_int (n : Z) : float :=
  SF2Prim (binary_normalize prec emax n 0 false).

(** [str(n)] for an [int]. *)
Definition str_of_int (n : Z) : string :=
  NilZero.string_of_int (Z.to_int n).

(** ** The script: value normalizer and idempotency key *)

(** [clean(value)] *)
Definition clean (value : pyval) : pyval :=
  match value with
  | VNone => VNone
  | VFloat f => if PrimFloat.is_nan f then VNone else value
  | VTimestamp d => VStr (isoformat d)
  | _ => value
  end.

(** [normalize_minute(ts)] *)
Definition normalize_minute (ts : string) : result string :=
  rbind (fromisoformat (replace_char "Z" "+00:00" ts)) (fun dt =>
  Ok (slice_to 16 (isoformat (replace_second_microsecond dt)))).

(** The text as [build_idem] cleans it:
    [''.join(sms.split()).lower()[:100]]. *)
Definition idem_content (sms : string) : string :=
  slice_to 100 (lower (join_split sms)).

(** [build_idem(sms, ts)] *)
Definition build_idem (sms ts : string) : result string :=
  let content := idem_content sms in
  rbind (normalize_minute ts) (fun minute =>
  let base := content ++ "|" ++ minute in
  Ok (sha256_hex base)).

(** [build_idem] as the ledger block calls it, on whatever the cells
    hold: [sms.split] and [ts.replace] exist on [str] only. *)
Definition build_idem_val (sms ts : pyval) : result string :=
  match sms, ts with
  | VStr s, VStr t => build_idem s t
  | _, _ => Raise AttributeError
  end.

(** ** Rows, records, requests *)

(** A spreadsheet row ([pandas.Series]) and an emitted record, by column
    or field name. *)
Abbreviation row := (gmap string pyval).
Abbreviation record := (gmap string pyval).

(** [r.get(column)] *)
Definition row_get (r : row) (column : string) : pyval :=
  default VNone (r !! column).

(** A [dict] display [{k1: v1, ...}]. *)
Definition dict (fields : list (string * pyval)) : record :=
  list_to_map fields.

(** The workbook: the rows of each sheet it has, by sheet name. *)
Abbreviation workbook := (gmap string (list row)).

(** A response: its status, its body, and what the identity lookup reads
    in the body, the [id] of each entry of the [users] array of the JSON
    object the service answers with (none if it has no such array). *)
Record response : Type := Response {
  status : Z;
  content : string;
  users : list string }.

Record request : Type := Request {
  req_method : string;
  req_url : string;
  req_headers : list (string * string);
  req_body : option (list record) }.

(** The run's configuration, read from the process environment. *)
Record config : Type := Config {
  SUPABASE_URL : string;
  SERVICE_KEY : string;
  USER_EMAIL : string }.

(** A computation that makes requests: it extends the log of requests
    attempted so far and returns or raises. *)
Definition M (A : Type) : Type := list request -> result A * list request.

Definition mret {A} (a : A) : M A := fun log => (Ok a, log).
Definition mraise {A} (e : exn) : M A := fun log => (Raise e, log).
Definition mbind {A B} (c : M A) (k : A -> M B) : M B :=
  fun log =>
    match c log with
    | (Ok a, log') => k a log'
    | (Raise e, log') => (Raise e, log')
    end.
Definition lift {A} (r : result A) : M A := fun log => (r, log).

Notation "'do' x <- c ; k" := (mbind c (fun x => k))
  (at level 10, x name, c at level 100, k at level 200).

(** [for x in xs: body(x)] *)
Fixpoint for_each {A} (xs : list A) (body : A -> M unit) : M unit :=
  match xs with
  | nil => mret tt
  | x :: xs' => do _ <- body x; for_each xs' body
  end.

(** [range(0, stop, step)] *)
Definition py_range (stop step : nat) : list nat :=
  map (fun k => k * step)%nat (seq 0 ((stop + step - 1) / step)).

(** [rows[i:i+n]] *)
Definition list_slice {A} (i n : nat) (rows : list A) : list A :=
  firstn n (skipn i rows).

Definition upper_hex (d : Z) : ascii :=
  if (d <? 10)%Z then chr (48 + d) else chr (55 + d).

(** [urllib.parse.quote_plus] on one character. *)
Definition quote_char (c : ascii) : string :=
  let n := code c in
  if ((48 <=? n) && (n <=? 57) || (65 <=? n) && (n <=? 90)
      || (97 <=? n) && (n <=? 122)
      || (n =? 95) || (n =? 46) || (n =? 45) || (n =? 126))%Z
  then String c EmptyString
  else if (n =? 32)%Z then "+"
  else
    let hex b := String "%" (String (upper_hex (b / 16))
                            (String (upper_hex (b mod 16)) EmptyString)) in
    String.concat "" (map hex (encode_utf8 (String c EmptyString))).

Fixpoint quote_plus (s : string) : string :=
  match s with
  | EmptyString => EmptyString
  | String c s' => quote_char c ++ quote_plus s'
  end.

(** ** The script: identity lookup, batch upsert, the six sheets *)

Section Script.
(** Two library functions are left open: the value [float(s)] gives a
    text that is a float literal (correctly rounded), and [repr] of a
    float, which [str] uses. *)
Variable float_of_literal : string -> float.
Variable repr_float : float -> string.

(** The transport: given the requests attempted so far and a new one,
    [urlopen] raises (with the text of the exception) or answers. *)
Variable urlopen : list request -> request -> string + response.

(** [str(v)] *)
Definition py_str (v : pyval) : string :=
  match v with
  | VNone => "None"
  | VBool true => "True"
  | VBool false => "False"
  | VInt n => str_of_int n
  | VFloat f => repr_float f
  | VStr s => s
  | VTimestamp d => replace_char "T" " " (isoformat d)
  end.

(** [float(v)] *)
Definition py_float (v : pyval) : result float :=
  match v with
  | VNone => Raise TypeError
  | VBool b => Ok (if b then PrimFloat.one else PrimFloat.zero)
  | VInt n =>
      let f := float_of_int n in
      if PrimFloat.is_infinity f then Raise OverflowError else Ok f
  | VFloat f => Ok f
  | VStr s => if is_float_literal s then Ok (float_of_literal s) else Raise ValueError
  | VTimestamp _ => Raise TypeError
  end.

Section Configured.
Variable cfg : config.

(** The module-level [headers]. *)
Definition headers : list (string * string) :=
  ("Authorization", "Bearer " ++ SERVICE_KEY cfg)
  :: ("apikey", SERVICE_KEY cfg)
  :: ("Content-Type", "application/json") :: nil.

(** One call of [request.urlopen]: the attempt is logged. *)
Definition send (req : request) : M (string + response) :=
  fun log => (Ok (urlopen log req), (log ++ req :: nil)%list).

(** [http_request('GET', url, params=params)] *)
Definition http_get (url : string) (params : list (string * string))
  : M response :=
  let query := String.concat "&"
    (map (fun kv => quote_plus (fst kv) ++ "=" ++ quote_plus (snd kv)) params) in
  let url := match params with nil => url | _ => url ++ "?" ++ query end in
  do r <- send (Request "GET" url headers None);
  match r with
  | inl e => mraise (RuntimeError ("HTTP GET failed: " ++ e))
  | inr resp => mret resp
  end.

(** [get_user_id(email)] *)
Definition get_user_id (email : string) : M string :=
  do resp <- http_get (SUPABASE_URL cfg ++ "/auth/v1/admin/users")
                      (("email", email) :: nil);
  if (status resp >=? 300)%Z
  then mraise (RuntimeError ("User lookup failed: " ++ str_of_int (status resp)
                             ++ " " ++ content resp))
  else match users resp with
       | nil => mraise (RuntimeError ("No user found for " ++ email))
       | u :: _ => mret u
       end.

(** The request [post_rows] builds for one chunk. *)
Definition chunk_request (url : string) (chunk : list record) : request :=
  Request "POST" url
          (headers ++ ("Prefer", "resolution=merge-duplicates") :: nil)%list
          (Some chunk).

(** The URL [post_rows] posts to. *)
Definition post_url (table : string) (on_conflict : option string) : string :=
  let url := SUPABASE_URL cfg ++ "/rest/v1/" ++ table in
  match on_conflict with
  | Some oc => if String.eqb oc "" then url else url ++ "?on_conflict=" ++ oc
  | None => url
  end.

(** The body of the loop of [post_rows]: one chunk, one request; an
    exception of the transport becomes a [RuntimeError] naming the table. *)
Definition post_chunk (table url : string) (chunk : list record) : M unit :=
  do r <- send (chunk_request url chunk);
  match r with
  | inl e => mraise (RuntimeError ("Insert failed for " ++ table ++ ": " ++ e))
  | inr _ => mret tt
  end.

(** [post_rows(table, rows, on_conflict)] *)
Definition post_rows (table : string) (rows : list record)
           (on_conflict : option string) : M unit :=
  match rows with
  | nil => mret tt
  | _ =>
      let url := post_url table on_conflict in
      for_each (py_range (length rows) 200) (fun i =>
        post_chunk table url (list_slice i 200 rows))
  end.

(** *** The loop over the rows of a sheet

    [row_fn] is the body of the loop: [Ok None] is [continue],
    [Ok (Some rec)] is [rows.append(rec)]. *)
Fixpoint collect (row_fn : row -> result (option record))
         (df : list row) (rows : list record) : result (list record) :=
  match df with
  | nil => Ok rows
  | r :: df' =>
      match row_fn r with
      | Raise e => Raise e
      | Ok None => collect row_fn df' rows
      | Ok (Some rec) => collect row_fn df' (rows ++ rec :: nil)%list
      end
  end.

Definition transform (row_fn : row -> result (option record))
           (df : list row) : result (list record) :=
  collect row_fn df nil.

Section Sheets.
Variable user_id : string.

(** RawLedger *)
Definition ledger_row (r : row) : result (option record) :=
  let ts := clean (row_get r "Timestamp") in
  if negb (truthy ts) then Ok None else
  let raw_text := py_or (clean (row_get r "RawText")) (VStr "") in
  rbind (build_idem_val raw_text ts) (fun idem =>
  rbind (match clean (row_get r "Amount") with
         | VNone => Ok VNone
         | _ => rbind (py_float (row_get r "Amount")) (fun f => Ok (VFloat f))
         end) (fun amount =>
  Ok (Some (dict (
    ("user_id", VStr user_id)
    :: ("txn_timestamp", ts)
    :: ("amount", amount)
    :: ("currency", py_or (clean (row_get r "Currency")) (VStr "QAR"))
    :: ("counterparty", clean (row_get r "Counterparty"))
    :: ("card", clean (row_get r "Card"))
    :: ("direction", clean (row_get r "Direction"))
    :: ("txn_type", clean (row_get r "TxnType"))
    :: ("raw_text", raw_text)
    :: ("net", clean (row_get r "NET"))
    :: ("idempotency_key", VStr idem)
    :: ("source", VStr "import") :: nil))))).

(** MerchantMap *)
Definition merchant_row (r : row) : result (option record) :=
  let pattern := clean (row_get r "Pattern") in
  if negb (truthy pattern) then Ok None else
  Ok (Some (dict (
    ("user_id", VStr user_id)
    :: ("pattern", VStr (lower (py_str pattern)))
    :: ("display_name", clean (row_get r "Display Name"))
    :: ("consolidated_name", clean (row_get r "Consolidated Name"))
    :: ("category", clean (row_get r "Category")) :: nil))).

(** FXRates *)
Definition fx_row (r : row) : result (option record) :=
  let currency := clean (row_get r "Currency") in
  if negb (truthy currency) then Ok None else
  Ok (Some (dict (
    ("user_id", VStr user_id)
    :: ("currency", currency)
    :: ("rate_to_qar", clean (row_get r "RateToQAR"))
    :: ("formula", clean (row_get r "Formula")) :: nil))).

(** UserContext *)
Definition context_row (r : row) : result (option record) :=
  let type_val := clean (row_get r "Type") in
  if negb (truthy type_val) then Ok None else
  Ok (Some (dict (
    ("user_id", VStr user_id)
    :: ("type", type_val)
    :: ("key", clean (row_get r "Key"))
    :: ("value", clean (row_get r "Value"))
    :: ("details", clean (row_get r "Details"))
    :: ("date_added", clean (row_get r "DateAdded"))
    :: ("source", clean (row_get r "Source")) :: nil))).

(** Recipients *)
Definition recipient_row (r : row) : result (option record) :=
  let phone := clean (row_get r "Phone") in
  let bank := clean (row_get r "BankAccount") in
  let short := clean (row_get r "ShortName") in
  let long := clean (row_get r "LongName") in
  if negb (truthy (py_or (py_or (py_or phone bank) short) long)) then Ok None else
  Ok (Some (dict (
    ("user_id", VStr user_id)
    :: ("phone", match phone with VNone => VNone | _ => VStr (py_str phone) end)
    :: ("bank_account", bank)
    :: ("short_name", short)
    :: ("long_name", long) :: nil))).

(** Insights *)
Definition insight_row (r : row) : result (option record) :=
  let date := clean (row_get r "Date") in
  let insights := clean (row_get r "Insights") in
  if negb (truthy date) || negb (truthy insights) then Ok None else
  Ok (Some (dict (
    ("user_id", VStr user_id)
    :: ("date", date)
    :: ("insights", insights) :: nil))).

(** One block of the script: [if sheet in xl.sheet_names: ...],
    the loop over the rows, then [post_rows]. *)
Definition sheet_block (wb : workbook) (sheet : string)
           (row_fn : row -> result (option record))
           (table : string) (on_conflict : option string) : M unit :=
  match wb !! sheet with
  | None => mret tt
  | Some df =>
      do rows <- lift (transform row_fn df);
      post_rows table rows on_conflict
  end.

(** The six blocks, in the order of the script. *)
Definition sheet_blocks (wb : workbook) : list (M unit) :=
  sheet_block wb "RawLedger" ledger_row "raw_ledger" (Some "user_id,idempotency_key")
  :: sheet_block wb "MerchantMap" merchant_row "merchant_map" (Some "user_id,pattern")
  :: sheet_block wb "FXRates" fx_row "fx_rates" (Some "user_id,currency")
  :: sheet_block wb "UserContext" context_row "user_context" None
  :: sheet_block wb "Recipients" recipient_row "recipients" None
  :: sheet_block wb "Insights" insight_row "insights" None :: nil.

End Sheets.

(** Statements one after the other. *)
Fixpoint sequence (blocks : list (M unit)) : M unit :=
  match blocks with
  | nil => mret tt
  | b :: blocks' => do _ <- b; sequence blocks'
  end.

(** The script from [user_id = get_user_id(USER_EMAIL)] to its end. *)
Definition import_workbook (wb : workbook) : M unit :=
  do user_id <- get_user_id (USER_EMAIL cfg);
  sequence (sheet_blocks user_id wb).
End Configured.

(** [os.environ.get] of the three required variables. *)
Record environ : Type := Environ {
  env_SUPABASE_URL : option string;
  env_SERVICE_KEY : option string;
  env_USER_EMAIL : option string }.

Definition env_set (v : option string) : bool :=
  match v with
  | Some s => negb (String.eqb s "")
  | None => false
  end.

(** The whole module: the check of the environment, then the import. *)
Definition main (env : environ) (wb : workbook) : M unit :=
  if env_set (env_SUPABASE_URL env) && env_set (env_SERVICE_KEY env)
     && env_set (env_USER_EMAIL env)
  then import_workbook (Config (default "" (env_SUPABASE_URL env))
                               (default "" (env_SERVICE_KEY env))
                               (default "" (env_USER_EMAIL env))) wb
  else mraise (SystemExit
         "Missing SUPABASE_URL, SUPABASE_SERVICE_ROLE_KEY, or FLOW_USER_EMAIL").
End Script.

(** ** Notions the properties are stated with *)

(** A text of 150 characters, 100 of them other than whitespace. *)
Definition hundred_a : string :=
  Eval cbv in String.concat "" (repeat "Aa a a" 25).

(** The date, hour and minute fields as the timestamp string has them. *)
Definition written_minute (d : datetime) : Z * Z * Z * Z * Z :=
  (year d, month d, day d, hour d, minute d).

(** The datetime [normalize_minute] parses out of [ts]. *)
Definition parse_timestamp (ts : string) : result datetime :=
  fromisoformat (replace_char "Z" "+00:00" ts).

(** The UTC minute in which the instant written [ts] falls. *)
Definition timestamp_utc_minute (ts : string) : option Z :=
  match parse_timestamp ts with
  | Ok d => utc_minute d
  | Raise _ => None
  end.

(** A cell that holds nothing: null, NaN, or the empty text. *)
Definition is_empty_cell (v : pyval) : bool :=
  match v with
  | VNone => true
  | VFloat f => PrimFloat.is_nan f
  | VStr s => String.eqb s ""
  | _ => false
  end.

(** A cell that holds a number equal to zero, or [False]. *)
Definition is_zero_or_false (v : pyval) : bool :=
  match v with
  | VBool b => negb b
  | VInt n => (n =? 0)%Z
  | VFloat f => PrimFloat.eqb f PrimFloat.zero
  | _ => false
  end.

(** The four key columns of the Recipients sheet. *)
Definition recipient_keys : list string :=
  "Phone" :: "BankAccount" :: "ShortName" :: "LongName" :: nil.

(** The chunks [post_rows] cuts [rows] into, one per index of its loop. *)
Definition chunks {A} (rows : list A) : list (list A) :=
  map (fun i => list_slice i 200 rows) (py_range (length rows) 200).

(** Whether a request asks the store to merge duplicates. *)
Definition asks_merge (req : request) : bool :=
  existsb (fun h => String.eqb (fst h) "Prefer"
                    && String.eqb (snd h) "resolution=merge-duplicates")
          (req_headers req).




(** ** Sample inputs *)

Definition phone_only_row : row := {[ "Phone" := VInt 97455501234 ]}.
Definition zero_phone_row : row := {[ "Phone" := VFloat 0%float ]}.

Definition sample_cfg : config :=
  Config "https://db.example" "service-key" "user@example.org".

Definition sample_float_of_literal : string -> float := fun _ => PrimFloat.zero.
Definition sample_repr_float : float -> string := fun _ => "0.0".

(** A transport that answers every request, naming one user. *)
Definition answering (log : list request) (req : request) : string + response :=
  inr (Response 200 "{}" ("owner-1" :: nil)).

(** A transport that answers the lookup and refuses every submission. *)
Definition refusing_posts (log : list request) (req : request)
  : string + response :=
  if String.eqb (req_method req) "POST" then inl "HTTP Error 500"
  else inr (Response 200 "{}" ("owner-1" :: nil)).

Definition sample_ledger_row : row :=
  {[ "Timestamp" := VStr "2024-03-01T10:07:42Z"; "RawText" := VStr "Paid 5 QAR" ]}.

Definition bad_amount_row : row :=
  {[ "Timestamp" := VStr "2024-03-01T10:07:42Z"; "Amount" := VStr "abc" ]}.

Definition sample_merchant_row : row := {[ "Pattern" := VStr "Carrefour" ]}.

Definition sample_workbook : workbook :=
  {[ "RawLedger" := sample_ledger_row :: nil;
     "MerchantMap" := sample_merchant_row :: nil ]}.

Definition bad_amount_workbook : workbook :=
  {[ "RawLedger" := sample_ledger_row :: bad_amount_row :: nil;
     "MerchantMap" := sample_merchant_row :: nil ]}.

Definition sample_context_record : record :=
  dict (("user_id", VStr "owner-1") :: ("type", VStr "note") :: nil).

(** The record the ledger block builds from [sample_ledger_row]. *)
Definition sample_ledger_record : record :=
  dict (("user_id", VStr "owner-1")
        :: ("txn_timestamp", VStr "2024-03-01T10:07:42Z")
        :: ("amount", VNone)
        :: ("currency", VStr "QAR")
        :: ("counterparty", VNone)
        :: ("card", VNone)
        :: ("direction", VNone)
        :: ("txn_type", VNone)
        :: ("raw_text", VStr "Paid 5 QAR")
        :: ("net", VNone)
        :: ("idempotency_key",
            VStr "51f3abcfe02f6d8742d0f0b49fab0dfc75ef45e3accf099b818e264cafd9186f")
        :: ("source", VStr "import") :: nil).

(** The request of the identity lookup under [sample_cfg]. *)
Definition sample_lookup_request : request :=
  Request "GET" "https://db.example/auth/v1/admin/users?email=user%40example.org"
          (headers sample_cfg) None.

(** The request that submits [sample_ledger_record]. *)
Definition sample_ledger_request : request :=
  chunk_request sample_cfg
    "https://db.example/rest/v1/raw_ledger?on_conflict=user_id,idempotency_key"
    (sample_ledger_record :: nil).

(** The record the merchant block builds from [sample_merchant_row]. *)
Definition sample_merchant_record : record :=
  dict (("user_id", VStr "owner-1")
        :: ("pattern", VStr "carrefour")
        :: ("display_name", VNone)
        :: ("consolidated_name", VNone)
        :: ("category", VNone) :: nil).

(** ** The rest of the script's helpers *)

(** [http_request(method, url, params, body)], of which [http_get] is
    the only use the script makes: the query is appended when there are
    parameters, the body is sent when there is one, and any exception of
    the transport becomes a [RuntimeError] naming the method. *)
Definition http_request
           (urlopen : list request -> request -> string + response)
           (cfg : config) (method url : string)
           (params : list (string * string)) (body : option (list record))
  : M response :=
  let query := String.concat "&"
    (map (fun kv => quote_plus (fst kv) ++ "=" ++ quote_plus (snd kv)) params) in
  let url := match params with nil => url | _ => url ++ "?" ++ query end in
  do r <- send urlopen (Request method url (headers cfg) body);
  match r with
  | inl e => mraise (RuntimeError ("HTTP " ++ method ++ " failed: " ++ e))
  | inr resp => mret resp
  end.

(** The request [get_user_id(email)] makes. *)
Definition lookup_request (cfg : config) (email : string) : request :=
  Request "GET"
          (SUPABASE_URL cfg ++ "/auth/v1/admin/users?email=" ++ quote_plus email)
          (headers cfg) None.


(** A required environment variable that is unset or empty. *)
Definition missing (v : option string) : Prop := v = None \/ v = Some "".


(** The records of the rows [row_fn] keeps, in the order of the sheet. *)
Definition kept (row_fn : row -> result (option record)) (df : list row)
  : list record :=
  flat_map (fun r => match row_fn r with
                     | Ok (Some rec) => rec :: nil
                     | _ => nil
                     end) df.




(** [all(p(c) for c in s)] *)
Fixpoint str_forall (p : ascii -> bool) (s : string) : bool :=
  match s with
  | EmptyString => true
  | String c s' => p c && str_forall p s'
  end.

(** The characters [quote_plus] leaves in its result: unreserved ones,
    the plus sign and the percent sign. *)
Definition is_query_safe (c : ascii) : bool :=
  let n := code c in
  ((48 <=? n) && (n <=? 57) || (65 <=? n) && (n <=? 90)
   || (97 <=? n) && (n <=? 122)
   || (n =? 95) || (n =? 46) || (n =? 45) || (n =? 126)
   || (n =? 43) || (n =? 37))%Z.





(** * Properties *)

(** ** Checks of the library models on known values *)

Example sha256_empty :
  sha256_hex "" = "e3b0c44298fc1c149afbf4c8996fb92427ae41e4649b934ca495991b7852b855".
Proof. vm_compute. reflexivity. Qed.

Example sha256_abc :
  sha256_hex "abc" = "ba7816bf8f01cfea414140de5dae2223b00361a396177a9cb410ff61f20015ad".
Proof. vm_compute. reflexivity. Qed.

Example sha256_two_blocks :
  sha256_hex "aaaaaaaaaaaaaaaaaaaaaaaaaaaaaaaaaaaaaaaaaaaaaaaaaaaaaaaa"
  = "b35439a4ac6f0948b6d6f9e3c6af0f5f590ce20f1bde7090ef7970686ec6738a".
Proof. vm_compute. reflexivity. Qed.

Example fromisoformat_utc :
  fromisoformat "2024-03-01T10:07:59+00:00"
  = Ok (Datetime 2024 3 1 10 7 59 0 (Some 0%Z)).
Proof. vm_compute. reflexivity. Qed.

Example fromisoformat_fraction :
  fromisoformat "2024-03-01 10:07:59.250-05:30"
  = Ok (Datetime 2024 3 1 10 7 59 250000 (Some (-19800000000)%Z)).
Proof. vm_compute. reflexivity. Qed.

Example fromisoformat_date_only :
  fromisoformat "2024-02-29" = Ok (Datetime 2024 2 29 0 0 0 0 None).
Proof. vm_compute. reflexivity. Qed.

Example fromisoformat_bad_day : fromisoformat "2023-02-29T10:07" = Raise ValueError.
Proof. vm_compute. reflexivity. Qed.

Example fromisoformat_rejects_Z : fromisoformat "2024-03-01T10:07:42Z" = Raise ValueError.
Proof. vm_compute. reflexivity. Qed.

Example isoformat_aware :
  isoformat (Datetime 2024 3 1 10 7 59 250000 (Some (-19800000000)%Z))
  = "2024-03-01T10:07:59.250000-05:30".
Proof. vm_compute. reflexivity. Qed.

Example float_literals_accepted :
  forallb is_float_literal
    ("3.64" :: " -12 " :: "1e5" :: ".5" :: "5." :: "+1_000.25E-3" :: "-Infinity"
     :: "NaN" :: nil) = true.
Proof. vm_compute. reflexivity. Qed.

Example float_literals_rejected :
  existsb is_float_literal
    ("abc" :: "" :: "  " :: "1,5" :: "1__0" :: "_1" :: "1e" :: "." :: "12 QAR"
     :: "0x10" :: "--1" :: nil) = false.
Proof. vm_compute. reflexivity. Qed.

Example float_of_int_examples :
  map float_of_int (0 :: 3 :: (-42) :: 9007199254740993 :: nil)%Z
  = (0 :: 3 :: (-42) :: 9007199254740992 :: nil)%float.
Proof. vm_compute. reflexivity. Qed.

Example str_of_int_examples :
  map str_of_int (0 :: 7 :: (-42) :: 97455501234 :: nil)%Z
  = "0" :: "7" :: "-42" :: "97455501234" :: nil.
Proof. vm_compute. reflexivity. Qed.

Example quote_plus_email : quote_plus "a b+c@x.org" = "a+b%2Bc%40x.org".
Proof. vm_compute. reflexivity. Qed.

(** ** The idempotency key *)

Example normalize_minute_Z :
  normalize_minute "2024-03-01T10:07:42Z" = Ok "2024-03-01T10:07".
Proof. vm_compute. reflexivity. Qed.

(** C5. The texts ["  Hello WORLD  "] and ["helloworld"] clean to the same
    content, the timestamps ["2024-03-01T10:07:42Z"] and
    ["2024-03-01T10:07:59+00:00"] normalize to the minute
    ["2024-03-01T10:07"] (the ["Z"] being rewritten to ["+00:00"] before
    parsing), and the two idempotency keys are the same digest. *)
Theorem hello_world_same_key :
  idem_content "  Hello WORLD  " = "helloworld"
  /\ idem_content "helloworld" = "helloworld"
  /\ replace_char "Z" "+00:00" "2024-03-01T10:07:42Z" = "2024-03-01T10:07:42+00:00"
  /\ normalize_minute "2024-03-01T10:07:42Z" = Ok "2024-03-01T10:07"
  /\ normalize_minute "2024-03-01T10:07:59+00:00" = Ok "2024-03-01T10:07"
  /\ build_idem "  Hello WORLD  " "2024-03-01T10:07:42Z"
     = build_idem "helloworld" "2024-03-01T10:07:59+00:00"
  /\ build_idem "helloworld" "2024-03-01T10:07:59+00:00"
     = Ok "666f2de029ea5b0672297bcdfec411625e1b264dd602e1ac547c7851875c3297".
Proof. vm_compute. repeat split; reflexivity. Qed.

(** *** Strings: filtering, mapping and slicing over concatenation *)

Lemma str_filter_app p s t :
  str_filter p (s ++ t) = str_filter p s ++ str_filter p t.
Proof.
  induction s as [|c s IH]; simpl; [reflexivity|].
  destruct (p c); simpl; now rewrite IH.
Qed.

Lemma str_map_app f s t : str_map f (s ++ t) = str_map f s ++ str_map f t.
Proof. induction s as [|c s IH]; simpl; [reflexivity | now rewrite IH]. Qed.

Lemma str_map_length f s : String.length (str_map f s) = String.length s.
Proof. induction s as [|c s IH]; simpl; [reflexivity | now rewrite IH]. Qed.

Lemma slice_to_app_long n s t :
  (n <= String.length s)%nat -> slice_to n (s ++ t) = slice_to n s.
Proof.
  revert s; induction n as [|n IH]; intros s Hn.
  - now destruct s.
  - destruct s as [|c s]; simpl in *; [lia|].
    rewrite IH; [reflexivity | lia].
Qed.

(** Two texts that share a prefix holding at least 100 characters other
    than whitespace clean to the same content. *)
Lemma idem_content_long_prefix p x y :
  (100 <= String.length (join_split p))%nat ->
  idem_content (p ++ x) = idem_content (p ++ y).
Proof.
  intros Hlen. unfold idem_content, join_split, lower in *.
  rewrite !str_filter_app, !str_map_app.
  rewrite !slice_to_app_long; try reflexivity; now rewrite str_map_length.
Qed.

(** C7. Two different texts that agree on the first 100 characters left
    after removing whitespace and lower-casing get the same key, at any
    timestamp. *)
Theorem truncated_texts_collide (s1 s2 t : string) :
  s1 <> s2 ->
  slice_to 100 (lower (join_split s1)) = slice_to 100 (lower (join_split s2)) ->
  build_idem s1 t = build_idem s2 t.
Proof.
  intros _ Hprefix. unfold build_idem, idem_content. now rewrite Hprefix.
Qed.

(** The same for texts written as a common long prefix and two tails. *)
Corollary long_prefix_collides (p x y t : string) :
  (100 <= String.length (join_split p))%nat ->
  build_idem (p ++ x) t = build_idem (p ++ y) t.
Proof.
  intros Hlen. unfold build_idem.
  now rewrite (idem_content_long_prefix p x y Hlen).
Qed.


(** *** The minute a timestamp is reduced to *)




Lemma isoformat_minute_prefix d :
  slice_to 16 (isoformat d)
  = zero_padded 4 (year d) ++ "-" ++ zero_padded 2 (month d) ++ "-"
    ++ zero_padded 2 (day d) ++ "T" ++ zero_padded 2 (hour d) ++ ":"
    ++ zero_padded 2 (minute d).
Proof.
  cbv [isoformat format_time zero_padded String.append slice_to].
  reflexivity.
Qed.

Lemma normalize_minute_parsed ts d :
  parse_timestamp ts = Ok d ->
  normalize_minute ts
  = Ok (zero_padded 4 (year d) ++ "-" ++ zero_padded 2 (month d) ++ "-"
        ++ zero_padded 2 (day d) ++ "T" ++ zero_padded 2 (hour d) ++ ":"
        ++ zero_padded 2 (minute d)).
Proof.
  unfold parse_timestamp, normalize_minute. intros ->. cbn [rbind].
  rewrite isoformat_minute_prefix. reflexivity.
Qed.

(** C3, as the code has it. Two well-formed timestamps whose written
    date, hour and minute agree, whatever their seconds, fractions and
    offsets, give the same key for the same text; the key is a digest. No
    conversion to UTC takes place. *)
Theorem same_written_minute_same_key (s t1 t2 : string) (d1 d2 : datetime) :
  parse_timestamp t1 = Ok d1 ->
  parse_timestamp t2 = Ok d2 ->
  written_minute d1 = written_minute d2 ->
  build_idem s t1 = build_idem s t2 /\ is_ok (build_idem s t1) = true.
Proof.
  intros H1 H2 Hw. unfold build_idem.
  rewrite (normalize_minute_parsed _ _ H1), (normalize_minute_parsed _ _ H2).
  unfold written_minute in Hw. injection Hw as -> -> -> -> ->.
  split; reflexivity.
Qed.

Lemma same_written_minute_same_key_witness :
  build_idem "Paid 5 QAR" "2024-03-01T10:07:42Z"
  = build_idem "Paid 5 QAR" "2024-03-01 10:07:05.250+03:00"
  /\ is_ok (build_idem "Paid 5 QAR" "2024-03-01T10:07:42Z") = true.
Proof.
  apply (same_written_minute_same_key _ _ _
           (Datetime 2024 3 1 10 7 42 0 (Some 0%Z))
           (Datetime 2024 3 1 10 7 5 250000 (Some 10800000000%Z)));
    vm_compute; reflexivity.
Defined.

(** C3, as stated, fails: 10:07:42 at offset zero and 13:07:42 at
    offset +03:00 are one instant, and their keys differ. *)
Lemma same_utc_minute_different_key :
  timestamp_utc_minute "2024-03-01T10:07:42+00:00"
  = timestamp_utc_minute "2024-03-01T13:07:42+03:00"
  /\ timestamp_utc_minute "2024-03-01T10:07:42+00:00" = Some 1064082847%Z
  /\ build_idem "x" "2024-03-01T10:07:42+00:00"
     = Ok "e0e4d0304ec5f78ff9313f8f5b8f57fd56251df4d8d95fec06875ce7ef43eefa"
  /\ build_idem "x" "2024-03-01T13:07:42+03:00"
     = Ok "7a607f9cfd46e31e075a9214eb17d205303e10bef2623c587e3ba8eecee4c949"
  /\ build_idem "x" "2024-03-01T10:07:42+00:00"
     <> build_idem "x" "2024-03-01T13:07:42+03:00".
Proof.
  repeat split; try (vm_compute; reflexivity).
  vm_compute. discriminate.
Qed.

Lemma truncated_texts_collide_witness :
  build_idem (hundred_a ++ " first tail") "2024-03-01T10:07:42Z"
  = build_idem (hundred_a ++ "SECOND") "2024-03-01T10:07:42Z".
Proof.
  apply truncated_texts_collide.
  - intros H. apply String.eqb_eq in H. vm_compute in H. discriminate H.
  - vm_compute. reflexivity.
Defined.

(** ** The value normalizer *)

Lemma isoformat_not_empty d : String.eqb (isoformat d) "" = false.
Proof. cbv [isoformat zero_padded String.append String.eqb]. reflexivity. Qed.

Lemma clean_none_iff v :
  clean v = VNone <-> v = VNone \/ exists f, v = VFloat f /\ PrimFloat.is_nan f = true.
Proof.
  split.
  - destruct v as [| b | n | f | s | d]; simpl; try discriminate; auto.
    destruct (PrimFloat.is_nan f) eqn:E; [eauto | discriminate].
  - intros [-> | (f & -> & E)]; simpl; [reflexivity | now rewrite E].
Qed.

Lemma clean_idempotent v : clean (clean v) = clean v.
Proof.
  destruct v as [| b | n | f | s | d]; simpl; try reflexivity.
  destruct (PrimFloat.is_nan f) eqn:E; simpl; [reflexivity | now rewrite E].
Qed.

(** C4, as the code has it. [clean] is a total function; the values it
    maps to [None] are exactly [None] and a NaN float; a timestamp
    becomes the text of its ISO-8601 form; every other value, the empty
    string among them, is returned as it is. *)
Theorem clean_characterised (v : pyval) :
  (clean v = VNone <->
     v = VNone \/ exists f, v = VFloat f /\ PrimFloat.is_nan f = true)
  /\ (forall d, v = VTimestamp d -> clean v = VStr (isoformat d))
  /\ ((exists s, v = VStr s) \/ (exists n, v = VInt n) \/ (exists b, v = VBool b)
      \/ (exists f, v = VFloat f /\ PrimFloat.is_nan f = false) -> clean v = v)
  /\ clean (clean v) = clean v.
Proof.
  split; [apply clean_none_iff|].
  split; [now intros d ->|].
  split; [|apply clean_idempotent].
  intros [(s & ->) | [(n & ->) | [(b & ->) | (f & -> & E)]]]; simpl;
    try reflexivity.
  now rewrite E.
Qed.

Lemma clean_characterised_witness :
  clean (VFloat PrimFloat.nan) = VNone
  /\ clean (VTimestamp (Datetime 2024 3 1 10 7 42 0 None)) = VStr "2024-03-01T10:07:42"
  /\ clean (VFloat 2.5%float) = VFloat 2.5%float
  /\ clean (VStr "") = VStr "".
Proof.
  destruct (clean_characterised (VFloat PrimFloat.nan)) as [[_ H1] _].
  destruct (clean_characterised (VTimestamp (Datetime 2024 3 1 10 7 42 0 None)))
    as (_ & H2 & _).
  destruct (clean_characterised (VFloat 2.5%float)) as (_ & _ & H3 & _).
  destruct (clean_characterised (VStr "")) as (_ & _ & H4 & _).
  split; [apply H1; right; exists PrimFloat.nan; split; reflexivity|].
  split; [apply (H2 _ eq_refl)|].
  split; [apply H3; right; right; right; exists 2.5%float; split; reflexivity|].
  apply H4; left; exists ""; reflexivity.
Defined.

(** C4, as stated, fails: the empty string is an empty cell value and
    [clean] returns it unchanged, not [None]. *)
Lemma clean_keeps_empty_string :
  is_empty_cell (VStr "") = true /\ clean (VStr "") = VStr ""
  /\ clean (VStr "") <> VNone.
Proof. repeat split. discriminate. Qed.

(** What [not clean(cell)] tests: the cell is empty, zero or [False]. *)
Lemma falsy_clean_iff v :
  truthy (clean v) = false <-> is_empty_cell v || is_zero_or_false v = true.
Proof.
  destruct v as [| b | n | f | s | d];
    cbn [clean truthy is_empty_cell is_zero_or_false].
  - tauto.
  - destruct b; simpl; intuition congruence.
  - destruct (n =? 0)%Z; simpl; intuition congruence.
  - destruct (PrimFloat.is_nan f) eqn:E; cbn [truthy orb]; [tauto|].
    destruct (PrimFloat.eqb f PrimFloat.zero); simpl; intuition congruence.
  - destruct (String.eqb s ""); simpl; intuition congruence.
  - rewrite isoformat_not_empty. simpl. intuition congruence.
Qed.

Lemma truthy_py_or a b : truthy (py_or a b) = truthy a || truthy b.
Proof. unfold py_or. destruct (truthy a) eqn:E; simpl; [exact E | reflexivity]. Qed.

(** ** The Recipients sheet *)

Section Recipients.
Variable repr_float : float -> string.
Variable user_id : string.

(** C8, as the code has it. A Recipients row is dropped exactly when each
    of its four key cells is empty, zero or [False]; a row whose phone
    cell is set to anything else is kept; the [phone] of a kept row is
    the text of the cell, or null when the cell is null or NaN. *)
Theorem recipient_keep_rule (r : row) :
  (recipient_row repr_float user_id r = Ok None <->
     forallb (fun c => is_empty_cell (row_get r c) || is_zero_or_false (row_get r c))
             recipient_keys = true)
  /\ (truthy (clean (row_get r "Phone")) = true ->
      exists rec, recipient_row repr_float user_id r = Ok (Some rec))
  /\ (forall rec, recipient_row repr_float user_id r = Ok (Some rec) ->
      rec !! "phone"
      = Some (match clean (row_get r "Phone") with
              | VNone => VNone
              | phone => VStr (py_str repr_float phone)
              end)).
Proof.
  unfold recipient_row, recipient_keys. cbn [forallb].
  rewrite !truthy_py_or, andb_true_r, !andb_true_iff, <- !falsy_clean_iff.
  destruct (truthy (clean (row_get r "Phone"))) eqn:Hp,
           (truthy (clean (row_get r "BankAccount"))) eqn:Hb,
           (truthy (clean (row_get r "ShortName"))) eqn:Hs,
           (truthy (clean (row_get r "LongName"))) eqn:Hl; cbn [orb negb];
    (split; [intuition congruence|]);
    (split; [intros; try discriminate; eauto|]);
    intros rec Hrec; try discriminate;
    injection Hrec as <-; unfold dict; cbn [list_to_map foldr];
    (rewrite lookup_insert_ne by discriminate);
    rewrite lookup_insert_eq; f_equal;
    now destruct (clean (row_get r "Phone")).
Qed.
End Recipients.


Lemma recipient_keep_rule_witness :
  exists rec,
    recipient_row (fun _ => "") "owner-1" phone_only_row = Ok (Some rec)
    /\ rec !! "phone" = Some (VStr "97455501234").
Proof.
  destruct (recipient_keep_rule (fun _ => "") "owner-1" phone_only_row)
    as (_ & Hkept & Hphone).
  destruct Hkept as [rec Hrec]; [vm_compute; reflexivity|].
  exists rec. split; [exact Hrec|]. exact (Hphone rec Hrec).
Defined.

(** C8, as stated, fails: a row whose phone cell holds the number zero
    has a key field that is not empty, and is dropped. *)
Lemma zero_phone_dropped :
  is_empty_cell (row_get zero_phone_row "Phone") = false
  /\ recipient_row (fun _ => "0.0") "owner-1" zero_phone_row = Ok None.
Proof. split; vm_compute; reflexivity. Qed.

(** ** The batch upsert client *)

Section Chunks.
Context {A : Type}.
Implicit Types rows : list A.

Lemma list_slice_shift i n rows :
  list_slice (200 + i) n rows = list_slice i n (skipn 200 rows).
Proof. unfold list_slice. now rewrite drop_drop. Qed.

Lemma slices_cover m : forall rows,
  (length rows <= m * 200)%nat ->
  concat (map (fun i => list_slice i 200 rows)
              (map (fun k => k * 200)%nat (seq 0 m))) = rows.
Proof.
  induction m as [|m IH]; intros rows Hlen.
  - destruct rows; [reflexivity | simpl in Hlen; lia].
  - cbn [seq map concat]. rewrite <- seq_shift, !map_map.
    erewrite map_ext; [|intros k; apply (list_slice_shift (k * 200))].
    rewrite <- (map_map (fun k => k * 200)%nat (fun i => list_slice i 200 (skipn 200 rows))).
    rewrite IH; [apply take_drop|].
    rewrite length_drop. lia.
Qed.

Lemma chunks_concat rows : concat (chunks rows) = rows.
Proof.
  unfold chunks, py_range. apply slices_cover.
  pose proof (Nat.div_mod_eq (length rows + 200 - 1) 200).
  pose proof (Nat.mod_upper_bound (length rows + 200 - 1) 200). lia.
Qed.

Lemma chunks_length rows : length (chunks rows) = ((length rows + 199) / 200)%nat.
Proof.
  unfold chunks, py_range. rewrite !length_map, length_seq.
  f_equal. lia.
Qed.

Lemma chunks_lookup rows j c :
  chunks rows !! j = Some c ->
  (j < length (chunks rows))%nat /\ c = list_slice (j * 200) 200 rows.
Proof.
  intros H. split; [now apply lookup_lt_Some in H|].
  unfold chunks, py_range in H.
  rewrite !list_lookup_fmap in H.
  destruct (seq 0 _ !! j) as [k|] eqn:E; [|discriminate].
  apply lookup_seq in E as [-> _]. simpl in H. now injection H as <-.
Qed.

Lemma chunks_sizes rows j c :
  chunks rows !! j = Some c ->
  (1 <= length c <= 200)%nat
  /\ (S j < length (chunks rows) -> length c = 200%nat)
  /\ (S j = length (chunks rows) -> length c = (length rows - j * 200)%nat).
Proof.
  intros H. apply chunks_lookup in H as [Hj ->].
  rewrite chunks_length in *. unfold list_slice.
  rewrite length_take, length_drop.
  pose proof (Nat.div_mod_eq (length rows + 199) 200).
  pose proof (Nat.mod_upper_bound (length rows + 199) 200). lia.
Qed.

End Chunks.

Section Upsert.
Variable urlopen : list request -> request -> string + response.
Variable cfg : config.

Lemma for_each_map {X Y} (f : X -> Y) (body : Y -> M unit) xs :
  for_each (map f xs) body = for_each xs (fun x => body (f x)).
Proof. induction xs as [|x xs IH]; simpl; [reflexivity | now rewrite IH]. Qed.

(** [post_rows] is its loop body run over the chunks, in order. *)
Lemma post_rows_loop table rows oc :
  post_rows urlopen cfg table rows oc
  = for_each (chunks rows) (post_chunk urlopen cfg table (post_url cfg table oc)).
Proof.
  unfold chunks. rewrite for_each_map. now destruct rows.
Qed.

Lemma post_chunk_answered table url chunk log resp :
  urlopen log (chunk_request cfg url chunk) = inr resp ->
  post_chunk urlopen cfg table url chunk log
  = (Ok tt, (log ++ chunk_request cfg url chunk :: nil)%list).
Proof. intros H. unfold post_chunk, mbind, send. now rewrite H. Qed.

Lemma post_chunk_refused table url chunk log msg :
  urlopen log (chunk_request cfg url chunk) = inl msg ->
  post_chunk urlopen cfg table url chunk log
  = (Raise (RuntimeError ("Insert failed for " ++ table ++ ": " ++ msg)),
     (log ++ chunk_request cfg url chunk :: nil)%list).
Proof. intros H. unfold post_chunk, mbind, send. now rewrite H. Qed.


(** Whatever the transport does, the requests made are the chunk
    requests of a prefix of the chunks. *)
Lemma post_loop_prefix table url cs : forall log,
  exists k, (k <= length cs)%nat
    /\ snd (for_each cs (post_chunk urlopen cfg table url) log)
       = (log ++ map (chunk_request cfg url) (firstn k cs))%list.
Proof.
  induction cs as [|c cs IH]; intros log.
  - exists 0%nat. simpl. now rewrite app_nil_r.
  - cbn [for_each]. unfold mbind at 1.
    destruct (urlopen log (chunk_request cfg url c)) as [msg|resp] eqn:E.
    + rewrite (post_chunk_refused _ _ _ _ _ E).
      exists 1%nat. simpl. split; [lia | reflexivity].
    + rewrite (post_chunk_answered _ _ _ _ _ E).
      destruct (IH (log ++ chunk_request cfg url c :: nil)%list) as (k & Hk & ->).
      exists (S k). simpl. split; [lia | now rewrite <- app_assoc].
Qed.

(** The first refused chunk ends the loop: it is the last request made. *)
Lemma post_loop_refused table url sent c rest msg : forall log,
  (forall j c', sent !! j = Some c' ->
     exists resp,
       urlopen (log ++ map (chunk_request cfg url) (firstn j sent))%list
               (chunk_request cfg url c') = inr resp) ->
  urlopen (log ++ map (chunk_request cfg url) sent)%list (chunk_request cfg url c)
  = inl msg ->
  for_each (sent ++ c :: rest) (post_chunk urlopen cfg table url) log
  = (Raise (RuntimeError ("Insert failed for " ++ table ++ ": " ++ msg)),
     (log ++ map (chunk_request cfg url) (sent ++ c :: nil))%list).
Proof.
  induction sent as [|c0 sent IH]; intros log Hsent Hc.
  - cbn [app for_each map]. unfold mbind at 1.
    rewrite app_nil_r in Hc. now rewrite (post_chunk_refused _ _ _ _ _ Hc).
  - cbn [app for_each map]. unfold mbind at 1.
    destruct (Hsent 0%nat c0 eq_refl) as [resp Hresp].
    cbn [firstn map] in Hresp. rewrite app_nil_r in Hresp.
    rewrite (post_chunk_answered _ _ _ _ _ Hresp).
    rewrite IH.
    + now rewrite <- app_assoc.
    + intros j c' Hj. destruct (Hsent (S j) c' Hj) as [r Hr].
      exists r. cbn [firstn map] in Hr. now rewrite <- app_assoc.
    + cbn [map] in Hc. now rewrite <- app_assoc.
Qed.

Lemma chunk_request_asks_merge url chunk :
  asks_merge (chunk_request cfg url chunk) = true.
Proof. reflexivity. Qed.


(** C2, as the code has it. Every request [post_rows] makes is the
    request of one of its chunks, and each asks for the merge of
    duplicates, with or without a constraint. The constraint only decides
    the URL: [?on_conflict=...] is appended when a non-empty descriptor is
    given, and nothing is appended otherwise. *)
Theorem merge_asked_for_every_chunk (table : string) (rows : list record)
        (oc : option string) (log : list request) :
  (exists k, (k <= length (chunks rows))%nat
     /\ snd (post_rows urlopen cfg table rows oc log)
        = (log ++ map (chunk_request cfg (post_url cfg table oc))
                      (firstn k (chunks rows)))%list)
  /\ (forall chunk,
        asks_merge (chunk_request cfg (post_url cfg table oc) chunk) = true)
  /\ post_url cfg table None = SUPABASE_URL cfg ++ "/rest/v1/" ++ table
  /\ post_url cfg table (Some "") = SUPABASE_URL cfg ++ "/rest/v1/" ++ table
  /\ (forall c, c <> "" ->
        post_url cfg table (Some c)
        = (SUPABASE_URL cfg ++ "/rest/v1/" ++ table) ++ "?on_conflict=" ++ c).
Proof.
  split; [rewrite post_rows_loop; apply post_loop_prefix|].
  split; [intros chunk; apply chunk_request_asks_merge|].
  split; [reflexivity|]. split; [reflexivity|].
  intros c Hc. unfold post_url.
  destruct (String.eqb_spec c ""); [contradiction | reflexivity].
Qed.
End Upsert.


Lemma merge_asked_for_every_chunk_witness :
  asks_merge (chunk_request sample_cfg (post_url sample_cfg "user_context" None)
                            (sample_context_record :: nil)) = true
  /\ post_url sample_cfg "user_context" None
     = "https://db.example/rest/v1/user_context"
  /\ post_url sample_cfg "fx_rates" (Some "user_id,currency")
     = "https://db.example/rest/v1/fx_rates?on_conflict=user_id,currency".
Proof.
  destruct (merge_asked_for_every_chunk answering sample_cfg "user_context"
              (sample_context_record :: nil) None nil) as (_ & Hmerge & Hnone & _).
  destruct (merge_asked_for_every_chunk answering sample_cfg "fx_rates"
              nil None nil) as (_ & _ & _ & _ & Hsome).
  split; [apply Hmerge|]. split; [exact Hnone|].
  apply Hsome. discriminate.
Defined.

(** C2, as stated, fails: called without a constraint, [post_rows] sends
    a request that asks for the merge of duplicates. *)
Lemma merge_asked_without_constraint :
  exists req,
    snd (post_rows answering sample_cfg "user_context"
                   (sample_context_record :: nil) None nil) = req :: nil
    /\ req_url req = "https://db.example/rest/v1/user_context"
    /\ In ("Prefer", "resolution=merge-duplicates") (req_headers req)
    /\ asks_merge req = true.
Proof.
  eexists. split; [vm_compute; reflexivity|].
  split; [reflexivity|]. split; [|reflexivity].
  cbn. auto.
Qed.

(** ** The run: one sheet after the other *)

Lemma sequence_raise_at (pre : list (M unit)) b post e : forall log log1 log2,
  sequence pre log = (Ok tt, log1) ->
  b log1 = (Raise e, log2) ->
  sequence (pre ++ b :: post) log = (Raise e, log2).
Proof.
  induction pre as [|x pre IH]; intros log log1 log2 Hpre Hb.
  - cbn in Hpre. injection Hpre as <-. cbn [app sequence]. unfold mbind.
    now rewrite Hb.
  - cbn [app sequence] in *. unfold mbind in *.
    destruct (x log) as [[a|e'] l']; [|discriminate].
    now apply (IH l' log1 log2).
Qed.

Lemma collect_raises row_fn (r : row) (e0 : exn) : forall df rows,
  In r df -> row_fn r = Raise e0 ->
  exists e, collect row_fn df rows = Raise e.
Proof.
  induction df as [|r' df IH]; intros rows Hin Hr; [destruct Hin|].
  cbn [collect]. destruct Hin as [-> | Hin].
  - rewrite Hr. eauto.
  - destruct (row_fn r') as [[rec|]|e']; eauto.
Qed.


Section Run.
Variable float_of_literal : string -> float.
Variable repr_float : float -> string.
Variable urlopen : list request -> request -> string + response.
Variable cfg : config.

Lemma sheet_block_posts wb sheet row_fn table oc df rows :
  wb !! sheet = Some df ->
  transform row_fn df = Ok rows ->
  sheet_block urlopen cfg wb sheet row_fn table oc
  = post_rows urlopen cfg table rows oc.
Proof. intros Hdf Hrows. unfold sheet_block, lift, mbind. now rewrite Hdf, Hrows. Qed.

(** C1, as the code has it. When the transport refuses a chunk of a
    sheet after the sheets before it were imported and the chunks before
    it were answered, the run ends there with a [RuntimeError] naming the
    table: the refused request is the last one made, no later chunk of
    the sheet and no later sheet is attempted, and what was sent before
    stays sent. *)
Theorem refused_chunk_ends_run (user_id : string) (wb : workbook)
        (pre post : list (M unit)) (sheet table : string)
        (row_fn : row -> result (option record)) (oc : option string)
        (df : list row) (rows : list record)
        (sent : list (list record)) (c : list record) (rest : list (list record))
        (msg : string) (log log1 : list request) :
  let url := post_url cfg table oc in
  sheet_blocks float_of_literal repr_float urlopen cfg user_id wb
  = (pre ++ sheet_block urlopen cfg wb sheet row_fn table oc :: post)%list ->
  sequence pre log = (Ok tt, log1) ->
  wb !! sheet = Some df ->
  transform row_fn df = Ok rows ->
  chunks rows = (sent ++ c :: rest)%list ->
  (forall j c', sent !! j = Some c' ->
     exists resp,
       urlopen (log1 ++ map (chunk_request cfg url) (firstn j sent))%list
               (chunk_request cfg url c') = inr resp) ->
  urlopen (log1 ++ map (chunk_request cfg url) sent)%list (chunk_request cfg url c)
  = inl msg ->
  sequence (sheet_blocks float_of_literal repr_float urlopen cfg user_id wb) log
  = (Raise (RuntimeError ("Insert failed for " ++ table ++ ": " ++ msg)),
     (log1 ++ map (chunk_request cfg url) (sent ++ c :: nil))%list).
Proof.
  intros url Hblocks Hpre Hdf Hrows Hchunks Hsent Hc.
  rewrite Hblocks. apply (sequence_raise_at _ _ _ _ _ log1); [exact Hpre|].
  rewrite (sheet_block_posts _ _ _ _ _ _ _ Hdf Hrows), post_rows_loop, Hchunks.
  now apply post_loop_refused.
Qed.

(** *** The owner of the records *)







(** C10. A ledger row with a present timestamp whose Amount cell holds a
    text that is not a float literal is neither skipped nor emitted: the
    row raises ([ValueError] when the key could be built), so does the
    transformer on any sheet that holds such a row, and the run ends with
    that exception before any request for any sheet is made. *)
Theorem non_numeric_amount_aborts (user_id : string) (wb : workbook)
        (df : list row) (r : row) (s : string) (log : list request) :
  wb !! "RawLedger" = Some df ->
  In r df ->
  truthy (clean (row_get r "Timestamp")) = true ->
  row_get r "Amount" = VStr s ->
  is_float_literal s = false ->
  (exists e, ledger_row float_of_literal user_id r = Raise e
     /\ (is_ok (build_idem_val (py_or (clean (row_get r "RawText")) (VStr ""))
                               (clean (row_get r "Timestamp"))) = true ->
         e = ValueError))
  /\ (exists e, transform (ledger_row float_of_literal user_id) df = Raise e)
  /\ (exists e,
        sequence (sheet_blocks float_of_literal repr_float urlopen cfg user_id wb) log
        = (Raise e, log)).
Proof.
  intros Hdf Hin Hts Hamount Hlit.
  assert (Hrow : exists e, ledger_row float_of_literal user_id r = Raise e
     /\ (is_ok (build_idem_val (py_or (clean (row_get r "RawText")) (VStr ""))
                               (clean (row_get r "Timestamp"))) = true ->
         e = ValueError)).
  { unfold ledger_row. rewrite Hts, Hamount. cbn [negb clean py_float].
    rewrite Hlit.
    destruct (build_idem_val _ _) as [idem|e]; cbn [rbind is_ok].
    - exists ValueError. now split.
    - exists e. split; [reflexivity | discriminate]. }
  destruct Hrow as (e0 & He0 & Hval).
  destruct (collect_raises (ledger_row float_of_literal user_id) r e0 df nil Hin He0)
    as [e He].
  change (transform (ledger_row float_of_literal user_id) df = Raise e) in He.
  split; [exists e0; now split|]. split; [exists e; exact He|].
  exists e. unfold sheet_blocks. cbn [sequence]. unfold mbind at 1.
  unfold sheet_block at 1. rewrite Hdf. unfold mbind, lift. now rewrite He.
Qed.
End Run.

Lemma refused_chunk_ends_run_witness :
  sequence (sheet_blocks sample_float_of_literal sample_repr_float refusing_posts
                         sample_cfg "owner-1" sample_workbook) nil
  = (Raise (RuntimeError "Insert failed for raw_ledger: HTTP Error 500"),
     sample_ledger_request :: nil).
Proof.
  apply (refused_chunk_ends_run sample_float_of_literal sample_repr_float
           refusing_posts sample_cfg "owner-1" sample_workbook
           nil
           (tl (sheet_blocks sample_float_of_literal sample_repr_float
                             refusing_posts sample_cfg "owner-1" sample_workbook))
           "RawLedger" "raw_ledger"
           (ledger_row sample_float_of_literal "owner-1")
           (Some "user_id,idempotency_key")
           (sample_ledger_row :: nil) (sample_ledger_record :: nil)
           nil (sample_ledger_record :: nil) nil "HTTP Error 500" nil nil).
  - reflexivity.
  - reflexivity.
  - vm_compute. reflexivity.
  - vm_compute. reflexivity.
  - vm_compute. reflexivity.
  - intros j c' H. discriminate H.
  - reflexivity.
Defined.

(** C1, as stated, fails: the MerchantMap sheet has a row its
    transformer keeps, the submission of the RawLedger sheet before it is
    refused, and the run ends with no request for [merchant_map]. *)
Lemma later_sheet_not_attempted :
  transform (merchant_row sample_repr_float "owner-1") (sample_merchant_row :: nil)
  = Ok (sample_merchant_record :: nil)
  /\ import_workbook sample_float_of_literal sample_repr_float refusing_posts
                     sample_cfg sample_workbook nil
     = (Raise (RuntimeError "Insert failed for raw_ledger: HTTP Error 500"),
        sample_lookup_request :: sample_ledger_request :: nil)
  /\ ~ In "https://db.example/rest/v1/merchant_map?on_conflict=user_id,pattern"
          (map req_url
             (snd (import_workbook sample_float_of_literal sample_repr_float
                     refusing_posts sample_cfg sample_workbook nil))).
Proof.
  split; [vm_compute; reflexivity|].
  assert (H : import_workbook sample_float_of_literal sample_repr_float
                refusing_posts sample_cfg sample_workbook nil
              = (Raise (RuntimeError "Insert failed for raw_ledger: HTTP Error 500"),
                 sample_lookup_request :: sample_ledger_request :: nil))
    by (vm_compute; reflexivity).
  split; [exact H|]. rewrite H. cbn.
  intros [E | [E | []]]; discriminate E.
Qed.


Lemma non_numeric_amount_aborts_witness :
  exists e,
    sequence (sheet_blocks sample_float_of_literal sample_repr_float answering
                           sample_cfg "owner-1" bad_amount_workbook) nil
    = (Raise e, nil).
Proof.
  apply (non_numeric_amount_aborts sample_float_of_literal sample_repr_float
           answering sample_cfg "owner-1" bad_amount_workbook
           (sample_ledger_row :: bad_amount_row :: nil) bad_amount_row "abc" nil).
  - vm_compute. reflexivity.
  - right. left. reflexivity.
  - vm_compute. reflexivity.
  - vm_compute. reflexivity.
  - vm_compute. reflexivity.
Defined.

(** On that sheet the exception is the [ValueError] of [float("abc")],
    and the lookup is the only request of the run. *)
Example bad_amount_run :
  import_workbook sample_float_of_literal sample_repr_float answering
                  sample_cfg bad_amount_workbook nil
  = (Raise ValueError, sample_lookup_request :: nil).
Proof. vm_compute. reflexivity. Qed.

(** With a transport that answers, the sample workbook is imported in
    three requests: the lookup, the ledger, the merchant map. *)
Example sample_run :
  let out := main sample_float_of_literal sample_repr_float answering
                  (Environ (Some "https://db.example") (Some "service-key")
                           (Some "user@example.org"))
                  sample_workbook nil in
  fst out = Ok tt
  /\ map req_url (snd out)
     = "https://db.example/auth/v1/admin/users?email=user%40example.org"
       :: "https://db.example/rest/v1/raw_ledger?on_conflict=user_id,idempotency_key"
       :: "https://db.example/rest/v1/merchant_map?on_conflict=user_id,pattern"
       :: nil
  /\ map req_body (snd out)
     = None :: Some (sample_ledger_record :: nil)
       :: Some (sample_merchant_record :: nil) :: nil.
Proof. vm_compute. repeat split; reflexivity. Qed.

(** * Further properties of the script *)

(** ** The HTTP helper and the identity lookup *)

Section Lookup.
Variable urlopen : list request -> request -> string + response.
Variable cfg : config.

Lemma http_get_is_http_request url params :
  http_get urlopen cfg url params = http_request urlopen cfg "GET" url params None.
Proof. reflexivity. Qed.


Lemma str_app_assoc (a b c : string) : (a ++ b) ++ c = a ++ b ++ c.
Proof.
  induction a as [|x a IH]; [reflexivity|].
  change (String x ((a ++ b) ++ c) = String x (a ++ b ++ c)). now f_equal.
Qed.




End Lookup.

(** ** The start of the run *)

Section Start.
Variable float_of_literal : string -> float.
Variable repr_float : float -> string.
Variable urlopen : list request -> request -> string + response.

Lemma env_set_false v : env_set v = false <-> missing v.
Proof.
  unfold missing. destruct v as [s|]; simpl.
  - destruct (String.eqb_spec s ""); simpl; split; intros H;
      try discriminate; auto.
    + subst. auto.
    + destruct H as [H|H]; [discriminate | injection H as ->; contradiction].
  - split; auto.
Qed.

(** X3. When one of the three required environment variables is unset
    or empty, the module exits with [SystemExit] before anything else:
    no request is made, not even the identity lookup. *)
Theorem missing_environment_exits (env : environ) (wb : workbook)
        (log : list request) :
  missing (env_SUPABASE_URL env) \/ missing (env_SERVICE_KEY env)
  \/ missing (env_USER_EMAIL env) ->
  main float_of_literal repr_float urlopen env wb log
  = (Raise (SystemExit
       "Missing SUPABASE_URL, SUPABASE_SERVICE_ROLE_KEY, or FLOW_USER_EMAIL"),
     log).
Proof.
  intros H. unfold main.
  rewrite <- !env_set_false in H.
  destruct (env_set (env_SUPABASE_URL env)), (env_set (env_SERVICE_KEY env)),
           (env_set (env_USER_EMAIL env)); try reflexivity.
  destruct H as [H | [H | H]]; discriminate H.
Qed.


End Start.

Lemma missing_environment_exits_witness :
  main sample_float_of_literal sample_repr_float answering
       (Environ (Some "https://db.example") (Some "") (Some "user@example.org"))
       sample_workbook nil
  = (Raise (SystemExit
       "Missing SUPABASE_URL, SUPABASE_SERVICE_ROLE_KEY, or FLOW_USER_EMAIL"),
     nil).
Proof.
  apply missing_environment_exits. right. left. right. reflexivity.
Defined.



(** ** More on the idempotency key *)

Lemma code_chr n : (0 <= n < 256)%Z -> code (chr n) = n.
Proof.
  intros H. unfold code, chr. rewrite N_ascii_embedding; lia.
Qed.









Lemma lower_char_idempotent c : lower_char (lower_char c) = lower_char c.
Proof. destruct c as [[] [] [] [] [] [] [] []]; reflexivity. Qed.


Lemma lower_idempotent s : lower (lower s) = lower s.
Proof.
  unfold lower. induction s as [|c s IH]; cbn [str_map]; [reflexivity|].
  now rewrite lower_char_idempotent, IH.
Qed.






(** ** More on the batch upsert client *)

Section UpsertOutcome.
Variable urlopen : list request -> request -> string + response.
Variable cfg : config.




(** X9. Whatever the transport does, every request [post_rows] makes is
    a POST to the table's URL whose body holds between 1 and 200 of the
    given records, and it makes at most [ceil(n/200)] of them. *)
Theorem post_rows_requests_bounded (table : string) (rows : list record)
        (oc : option string) (log : list request) :
  exists sent,
    snd (post_rows urlopen cfg table rows oc log) = (log ++ sent)%list
    /\ (length sent <= (length rows + 199) / 200)%nat
    /\ Forall (fun req =>
         req_method req = "POST"
         /\ req_url req = post_url cfg table oc
         /\ exists chunk, req_body req = Some chunk
              /\ (1 <= length chunk <= 200)%nat
              /\ (forall rec, In rec chunk -> In rec rows)) sent.
Proof.
  rewrite post_rows_loop.
  destruct (post_loop_prefix urlopen cfg table (post_url cfg table oc)
              (chunks rows) log) as (k & Hk & ->).
  eexists. split; [reflexivity|]. split.
  - rewrite length_map, length_take, <- chunks_length. lia.
  - apply List.Forall_forall. intros req Hreq.
    apply in_map_iff in Hreq as (c & <- & Hc).
    split; [reflexivity|]. split; [reflexivity|].
    exists c. split; [reflexivity|].
    assert (Hin : In c (chunks rows)).
    { rewrite <- (firstn_skipn k (chunks rows)). apply in_or_app. now left. }
    apply list_elem_of_In, list_elem_of_lookup in Hin as [j Hj].
    split; [apply (chunks_sizes rows j c Hj)|].
    intros rec Hrec. rewrite <- (chunks_concat rows). apply in_concat.
    exists c. split; [|exact Hrec].
    apply list_elem_of_In, list_elem_of_lookup. now exists j.
Qed.
End UpsertOutcome.

(** ** The loop over the rows *)

Lemma collect_kept row_fn : forall (df : list row) (acc : list record),
  (forall r, In r df -> is_ok (row_fn r) = true) ->
  collect row_fn df acc = Ok (acc ++ kept row_fn df)%list.
Proof.
  induction df as [|r df IH]; intros acc Hok.
  - cbn. now rewrite app_nil_r.
  - cbn [collect kept flat_map].
    pose proof (Hok r (or_introl eq_refl)) as Hr.
    destruct (row_fn r) as [[rec|]|e]; [| |discriminate Hr].
    + rewrite IH by (intros r' Hr'; apply Hok; now right).
      now rewrite <- app_assoc.
    + apply IH. intros r' Hr'. apply Hok. now right.
Qed.

Lemma collect_first_error row_fn : forall (df : list row) (acc : list record)
                                          (before after : list row) r e,
  df = (before ++ r :: after)%list ->
  (forall r', In r' before -> is_ok (row_fn r') = true) ->
  row_fn r = Raise e ->
  collect row_fn df acc = Raise e.
Proof.
  intros df acc before. revert df acc.
  induction before as [|b before IH]; intros df acc after r e -> Hok Hr.
  - cbn [app collect]. now rewrite Hr.
  - cbn [app collect].
    pose proof (Hok b (or_introl eq_refl)) as Hb.
    destruct (row_fn b) as [[rec|]|e']; [| |discriminate Hb];
      apply (IH _ _ after r e eq_refl); auto;
      intros r' Hr'; apply Hok; now right.
Qed.

Lemma kept_length row_fn (df : list row) :
  (length (kept row_fn df) <= length df)%nat.
Proof.
  induction df as [|r df IH]; cbn [kept flat_map length]; [lia|].
  rewrite length_app. fold (kept row_fn df).
  destruct (row_fn r) as [[rec|]|e]; cbn [length]; lia.
Qed.

(** X10. The loop over a sheet's rows returns the records of the kept
    rows, one per row and in the order of the sheet, when no row raises;
    when a row raises, it ends with the exception of the first such row
    and returns no record at all. *)
Theorem transform_outcome (row_fn : row -> result (option record))
        (df : list row) :
  ((forall r, In r df -> is_ok (row_fn r) = true) ->
   transform row_fn df = Ok (kept row_fn df)
   /\ (length (kept row_fn df) <= length df)%nat)
  /\ (forall before r after e,
        df = (before ++ r :: after)%list ->
        (forall r', In r' before -> is_ok (row_fn r') = true) ->
        row_fn r = Raise e ->
        transform row_fn df = Raise e).
Proof.
  split.
  - intros Hok. split; [|apply kept_length].
    unfold transform. now rewrite collect_kept.
  - intros before r after e Hdf Hok Hr.
    apply (collect_first_error row_fn df nil before after r e Hdf Hok Hr).
Qed.

Lemma transform_outcome_witness :
  transform (ledger_row sample_float_of_literal "owner-1")
            (sample_ledger_row :: bad_amount_row :: sample_ledger_row :: nil)
  = Raise ValueError.
Proof.
  apply (proj2 (transform_outcome (ledger_row sample_float_of_literal "owner-1")
                  (sample_ledger_row :: bad_amount_row :: sample_ledger_row :: nil))
               (sample_ledger_row :: nil) bad_amount_row (sample_ledger_row :: nil)).
  - reflexivity.
  - intros r' [<- | []]. vm_compute. reflexivity.
  - vm_compute. reflexivity.
Defined.

(** ** The rows of the six sheets *)

Ltac dict_lookup :=
  unfold dict; cbn [list_to_map foldr fst snd];
  repeat (rewrite lookup_insert_ne by discriminate);
  try apply lookup_insert_eq.





Section Rows.
Variable float_of_literal : string -> float.
Variable repr_float : float -> string.
Variable user_id : string.


(** X12. In the record of a kept ledger row the timestamp is the cleaned
    cell, the currency is never empty (the cell when it holds one, "QAR"
    otherwise), the amount is null exactly when the Amount cell is null or
    NaN and is the cell's float value otherwise (never a zero put in its
    place), the key is the one [build_idem] gives the text and the
    timestamp, and the source tag is "import". *)
Theorem ledger_record_fields (r : row) (rec : record) :
  ledger_row float_of_literal user_id r = Ok (Some rec) ->
  rec !! "txn_timestamp" = Some (clean (row_get r "Timestamp"))
  /\ (exists c, rec !! "currency" = Some c /\ truthy c = true
        /\ (truthy (clean (row_get r "Currency")) = true ->
            c = clean (row_get r "Currency"))
        /\ (truthy (clean (row_get r "Currency")) = false -> c = VStr "QAR"))
  /\ (clean (row_get r "Amount") = VNone -> rec !! "amount" = Some VNone)
  /\ (clean (row_get r "Amount") <> VNone ->
      exists f, py_float float_of_literal (row_get r "Amount") = Ok f
                /\ rec !! "amount" = Some (VFloat f))
  /\ (exists k, rec !! "idempotency_key" = Some (VStr k)
        /\ build_idem_val (py_or (clean (row_get r "RawText")) (VStr ""))
                          (clean (row_get r "Timestamp")) = Ok k)
  /\ rec !! "source" = Some (VStr "import").
Proof.
  unfold ledger_row. destruct (negb _); [discriminate|].
  destruct (build_idem_val _ _) as [idem|e]; cbn [rbind]; [|discriminate].
  destruct (match clean (row_get r "Amount") with VNone => _ | _ => _ end)
    as [amount|e] eqn:Ha; cbn [rbind]; [|discriminate].
  intros H. injection H as <-.
  split; [dict_lookup|]. split.
  { exists (py_or (clean (row_get r "Currency")) (VStr "QAR")).
    split; [dict_lookup|]. unfold py_or.
    destruct (truthy (clean (row_get r "Currency"))) eqn:Hc;
      repeat split; try reflexivity; try discriminate. exact Hc. }
  split.
  { intros Hn. rewrite Hn in Ha. injection Ha as <-. dict_lookup. }
  split.
  { intros Hn.
    assert (Hf : rbind (py_float float_of_literal (row_get r "Amount"))
                       (fun f => Ok (VFloat f)) = Ok amount).
    { destruct (clean (row_get r "Amount")); [contradiction| | | | |]; exact Ha. }
    destruct (py_float float_of_literal (row_get r "Amount")) as [f|e];
      cbn [rbind] in Hf; [|discriminate Hf].
    injection Hf as <-. exists f. split; [reflexivity | dict_lookup]. }
  split; [exists idem; split; [dict_lookup | reflexivity] | dict_lookup].
Qed.



(** X14. The pattern of a kept MerchantMap row is stored as text in
    lower case: it is the lower-cased text of the cell, and lower-casing
    it again changes nothing. *)
Theorem merchant_pattern_lower_case (r : row) (rec : record) :
  merchant_row repr_float user_id r = Ok (Some rec) ->
  exists p,
    rec !! "pattern" = Some (VStr p)
    /\ p = lower (py_str repr_float (clean (row_get r "Pattern")))
    /\ lower p = p.
Proof.
  unfold merchant_row. destruct (negb _); [discriminate|].
  intros H. injection H as <-.
  eexists. split; [dict_lookup|]. split; [reflexivity|].
  apply lower_idempotent.
Qed.

End Rows.

Lemma ledger_record_fields_witness :
  sample_ledger_record !! "amount" = Some VNone.
Proof.
  destruct (ledger_record_fields sample_float_of_literal "owner-1"
              sample_ledger_row sample_ledger_record)
    as (_ & _ & Hamount & _).
  - vm_compute. reflexivity.
  - apply Hamount. reflexivity.
Defined.

Lemma merchant_pattern_lower_case_witness :
  exists p,
    sample_merchant_record !! "pattern" = Some (VStr p)
    /\ p = lower (py_str sample_repr_float (clean (row_get sample_merchant_row "Pattern")))
    /\ lower p = p.
Proof.
  apply (merchant_pattern_lower_case sample_repr_float "owner-1"
           sample_merchant_row sample_merchant_record).
  vm_compute. reflexivity.
Defined.


(** ** The URL of the lookup *)

Lemma str_forall_app p s t :
  str_forall p (s ++ t) = str_forall p s && str_forall p t.
Proof.
  induction s as [|c s IH]; [reflexivity|].
  change (str_forall p (String c (s ++ t)) = str_forall p (String c s) && str_forall p t).
  cbn [str_forall]. now rewrite IH, andb_assoc.
Qed.

Lemma quote_char_safe c : str_forall is_query_safe (quote_char c) = true.
Proof. destruct c as [[] [] [] [] [] [] [] []]; reflexivity. Qed.

Lemma quote_plus_safe s : str_forall is_query_safe (quote_plus s) = true.
Proof.
  induction s as [|c s IH]; [reflexivity|].
  cbn [quote_plus]. now rewrite str_forall_app, quote_char_safe, IH.
Qed.

Lemma find_char_excluded p c s :
  str_forall p s = true -> p c = false -> find_char c s = None.
Proof.
  intros Hs Hc. induction s as [|x s IH]; [reflexivity|].
  cbn [str_forall find_char] in *. apply andb_true_iff in Hs as [Hx Hs].
  destruct (Ascii.eqb_spec x c) as [->|_]; [congruence|].
  now rewrite (IH Hs).
Qed.

(** X16. The e-mail address enters the URL of the lookup only in
    encoded form: the text after [?email=] holds nothing but letters,
    digits and the characters [_.-~+%], so no [&], [=], [#], [?], [/] or
    space of the address can add to or cut the query. *)
Theorem lookup_query_is_encoded (cfg : config) (email : string) :
  req_url (lookup_request cfg email)
  = SUPABASE_URL cfg ++ "/auth/v1/admin/users?email=" ++ quote_plus email
  /\ str_forall is_query_safe (quote_plus email) = true
  /\ find_char "&" (quote_plus email) = None
  /\ find_char "=" (quote_plus email) = None
  /\ find_char "#" (quote_plus email) = None
  /\ find_char "?" (quote_plus email) = None
  /\ find_char "/" (quote_plus email) = None
  /\ find_char " " (quote_plus email) = None.
Proof.
  split; [reflexivity|]. split; [apply quote_plus_safe|].
  repeat split;
    apply (find_char_excluded is_query_safe); auto using quote_plus_safe.
Qed.

(** ** The requests of a run *)

Section Requests.
Variable float_of_literal : string -> float.
Variable repr_float : float -> string.
Variable urlopen : list request -> request -> string + response.
Variable cfg : config.






End Requests.


(** ** Timestamps written by [clean] and read by [normalize_minute] *)

Lemma digit_char_code k : code (digit_char k) = (48 + k mod 10)%Z.
Proof.
  unfold digit_char. apply code_chr.
  pose proof (Z.mod_pos_bound k 10). lia.
Qed.

Lemma digit_char_is_digit k : is_digit (digit_char k) = true.
Proof.
  unfold is_digit. rewrite digit_char_code.
  pose proof (Z.mod_pos_bound k 10). lia.
Qed.

Lemma digits_value_digit acc k s :
  digits_value acc (String (digit_char k) s)
  = digits_value (acc * 10 + k mod 10)%Z s.
Proof.
  cbn [digits_value]. rewrite digit_char_is_digit, digit_char_code.
  f_equal. lia.
Qed.


Ltac divlia := Z.to_euclidean_division_equations; lia.

Lemma parse_int_pad2 k :
  (0 <= k < 100)%Z -> parse_int (zero_padded 2 k) = Some k.
Proof.
  intros H. cbv [zero_padded String.append parse_int].
  rewrite !digits_value_digit. cbn [digits_value]. f_equal. divlia.
Qed.

Lemma parse_int_pad4 k :
  (0 <= k < 10000)%Z -> parse_int (zero_padded 4 k) = Some k.
Proof.
  intros H. cbv [zero_padded String.append parse_int].
  rewrite !digits_value_digit. cbn [digits_value]. f_equal. divlia.
Qed.

Lemma parse_int_pad6 k :
  (0 <= k < 1000000)%Z -> parse_int (zero_padded 6 k) = Some k.
Proof.
  intros H. cbv [zero_padded String.append parse_int].
  rewrite !digits_value_digit. cbn [digits_value]. f_equal. divlia.
Qed.



Lemma digit_char_not c k :
  is_digit c = false -> Ascii.eqb (digit_char k) c = false.
Proof.
  intros Hc. destruct (Ascii.eqb_spec (digit_char k) c) as [<-|]; [|reflexivity].
  now rewrite digit_char_is_digit in Hc.
Qed.


Ltac run_small :=
  cbv [zero_padded String.append parse_isoformat_date
       parse_hh_mm_ss_ff parse_hh_mm_ss String.length
       Nat.ltb Nat.leb Nat.eqb Nat.sub negb
       slice slice_to slice_from char_at String.get
       parse_int parse_fraction nth digits_value];
  repeat (rewrite ?digit_char_is_digit, ?digit_char_code; cbv beta iota).

Lemma parse_date y m d :
  (0 <= y < 10000)%Z -> (0 <= m < 100)%Z -> (0 <= d < 100)%Z ->
  parse_isoformat_date
    (zero_padded 4 y ++ "-" ++ zero_padded 2 m ++ "-" ++ zero_padded 2 d)
  = Some (y, m, d).
Proof. intros Hy Hm Hd. run_small. repeat f_equal; divlia. Qed.

Lemma parse_hh_mm h m :
  (0 <= h < 100)%Z -> (0 <= m < 100)%Z ->
  parse_hh_mm_ss_ff (zero_padded 2 h ++ ":" ++ zero_padded 2 m)
  = Some (h, m, 0, 0)%Z.
Proof. intros Hh Hm. run_small. repeat f_equal; divlia. Qed.



Lemma str_app_cons c a b : String c a ++ b = String c (a ++ b).
Proof. reflexivity. Qed.


Lemma str_length_app a b :
  String.length (a ++ b) = (String.length a + String.length b)%nat.
Proof.
  induction a as [|c a IH]; [reflexivity|].
  rewrite str_app_cons. cbn [String.length]. now rewrite IH.
Qed.

Lemma zero_padded_length n k : String.length (zero_padded n k) = n.
Proof.
  revert k. induction n as [|n IH]; intros k; [reflexivity|].
  cbn [zero_padded]. rewrite str_length_app, IH. cbn [String.length]. lia.
Qed.

Lemma slice_to_app_exact a b : slice_to (String.length a) (a ++ b) = a.
Proof.
  induction a as [|c a IH]; [now destruct b|].
  rewrite str_app_cons. cbn [String.length slice_to]. now rewrite IH.
Qed.

Lemma slice_from_app_exact a b : slice_from (String.length a) (a ++ b) = b.
Proof.
  induction a as [|c a IH]; [now destruct b|].
  rewrite str_app_cons. cbn [String.length slice_from]. exact IH.
Qed.


Lemma find_char_app_none c a b :
  find_char c a = None -> find_char c b = None -> find_char c (a ++ b) = None.
Proof.
  intros Ha Hb. induction a as [|x a IH]; [exact Hb|].
  rewrite str_app_cons. cbn [find_char] in *.
  destruct (Ascii.eqb x c); [discriminate|].
  destruct (find_char c a); [discriminate|]. now rewrite IH.
Qed.


Lemma find_char_pad c n k :
  is_digit c = false -> find_char c (zero_padded n k) = None.
Proof.
  intros Hc. revert k. induction n as [|n IH]; intros k; [reflexivity|].
  cbn [zero_padded]. apply find_char_app_none; [apply IH|].
  cbn [find_char]. now rewrite digit_char_not.
Qed.

Lemma replace_char_absent c r s :
  find_char c s = None -> replace_char c r s = s.
Proof.
  induction s as [|x s IH]; [reflexivity|]. cbn [find_char replace_char].
  destruct (Ascii.eqb x c); [discriminate|].
  destruct (find_char c s); [discriminate|]. intros _. now rewrite IH.
Qed.




Lemma nonempty_time_match {A} (s : string) (a : A) (f : string -> A) :
  (1 <= String.length s)%nat ->
  match s with EmptyString => a | String _ _ => f s end = f s.
Proof. destruct s; cbn [String.length]; [lia | reflexivity]. Qed.




Lemma slice_from_app_cons a c b :
  slice_from (S (String.length a)) (a ++ String c b) = b.
Proof.
  induction a as [|x a IH]; [reflexivity|].
  rewrite str_app_cons. cbn [String.length slice_from]. exact IH.
Qed.

Lemma parse_time_naive T v :
  (2 <= String.length T)%nat ->
  find_char "-" T = None -> find_char "+" T = None ->
  parse_hh_mm_ss_ff T = Some v ->
  parse_isoformat_time T = Some (v, None).
Proof.
  intros Hlen Hm Hp Hv. unfold parse_isoformat_time.
  destruct (Nat.ltb_spec (String.length T) 2); [lia|].
  rewrite Hm, Hp, Hv. now destruct v as [[[h mi] s] us].
Qed.


Lemma valid_datetime_bounds d :
  valid_datetime d = true ->
  (1 <= year d <= 9999 /\ 1 <= month d <= 12 /\ 1 <= day d <= 31
   /\ 0 <= hour d <= 23 /\ 0 <= minute d <= 59 /\ 0 <= second d <= 59
   /\ 0 <= microsecond d <= 999999
   /\ forall o, utcoffset d = Some o -> - 86400000000 < o < 86400000000)%Z.
Proof.
  unfold valid_datetime, micros_per_day. intros H.
  rewrite !andb_true_iff, !Z.leb_le in H.
  destruct H as [[[[[[[[[[[[[[? ?] ?] ?] ?] Hd] ?] ?] ?] ?] ?] ?] ?] ?] Ho].
  assert (day d <= 31)%Z.
  { unfold days_in_month in Hd.
    destruct (month d =? 2)%Z; [destruct (is_leap (year d)); lia|].
    destruct (_ || _); lia. }
  repeat split; try lia;
    destruct (utcoffset d); try discriminate;
    match goal with H : Some _ = Some _ |- _ => injection H as <- end;
    rewrite andb_true_iff, !Z.ltb_lt in Ho; lia.
Qed.



Lemma fromisoformat_valid ts d :
  fromisoformat ts = Ok d -> valid_datetime d = true.
Proof.
  unfold fromisoformat.
  destruct (parse_isoformat_date _) as [[[y m] dd]|]; [|discriminate].
  destruct (match slice_from 11 ts with EmptyString => _ | _ => _ end)
    as [[[[[h mi] s] us] tz]|]; [|discriminate].
  destruct (valid_datetime _) eqn:E; [|discriminate].
  intros H. now injection H as <-.
Qed.

Lemma minute_text_parse y m dd h mi :
  valid_datetime (Datetime y m dd h mi 0 0 None) = true ->
  fromisoformat (zero_padded 4 y ++ "-" ++ zero_padded 2 m ++ "-"
                 ++ zero_padded 2 dd ++ "T" ++ zero_padded 2 h ++ ":"
                 ++ zero_padded 2 mi)
  = Ok (Datetime y m dd h mi 0 0 None).
Proof.
  intros Hvalid. pose proof (valid_datetime_bounds _ Hvalid) as B.
  cbn [year month day hour minute second microsecond utcoffset] in B.
  destruct B as (By & Bm & Bd & Bh & Bmi & _).
  unfold fromisoformat.
  set (D := zero_padded 4 y ++ "-" ++ zero_padded 2 m ++ "-" ++ zero_padded 2 dd).
  set (R := zero_padded 2 h ++ ":" ++ zero_padded 2 mi).
  assert (Hsplit : zero_padded 4 y ++ "-" ++ zero_padded 2 m ++ "-"
                   ++ zero_padded 2 dd ++ "T" ++ R = D ++ String "T" R).
  { subst D. now rewrite !str_app_assoc. }
  rewrite Hsplit.
  assert (HlenD : String.length D = 10%nat).
  { subst D. rewrite !str_length_app, !zero_padded_length. reflexivity. }
  assert (Hd : slice 0 10 (D ++ String "T" R) = D).
  { unfold slice. cbn [Nat.sub slice_from]. rewrite <- HlenD.
    apply slice_to_app_exact. }
  assert (Ht : slice_from 11 (D ++ String "T" R) = R).
  { rewrite <- HlenD. apply slice_from_app_cons. }
  rewrite Hd, Ht. subst D. rewrite parse_date by lia.
  assert (Hsep : forall c x, Ascii.eqb x c = false ->
                             find_char c (String x "") = None).
  { intros c x Hx. cbn [find_char]. now rewrite Hx. }
  assert (Hno : forall c, is_digit c = false -> Ascii.eqb ":" c = false ->
                          find_char c R = None).
  { intros c Hc Hcolon. subst R.
    apply find_char_app_none; [now apply find_char_pad|].
    apply find_char_app_none; [now apply Hsep | now apply find_char_pad]. }
  assert (HlenR : String.length R = 5%nat).
  { subst R. rewrite !str_length_app, !zero_padded_length. reflexivity. }
  rewrite (nonempty_time_match R) by lia.
  rewrite (parse_time_naive R (h, mi, 0, 0)%Z);
    [now rewrite Hvalid | lia | now apply Hno | now apply Hno |].
  subst R. apply parse_hh_mm; lia.
Qed.

Lemma valid_minute d :
  valid_datetime d = true ->
  valid_datetime (Datetime (year d) (month d) (day d) (hour d) (minute d) 0 0 None)
  = true.
Proof.
  unfold valid_datetime.
  cbn [year month day hour minute second microsecond utcoffset].
  rewrite !andb_true_iff. intros H. repeat split; try apply H; reflexivity.
Qed.

(** X19. The minute [normalize_minute] returns is a fixed point: given
    back as a timestamp it is well formed and normalizes to itself, so a
    key does not change when it is rebuilt from a normalized minute. *)
Theorem normalize_minute_stable ts m :
  normalize_minute ts = Ok m -> normalize_minute m = Ok m.
Proof.
  unfold normalize_minute.
  destruct (fromisoformat (replace_char "Z" "+00:00" ts)) as [d|e] eqn:E;
    cbn [rbind]; [|discriminate].
  intros H.
  assert (Hm : m = slice_to 16 (isoformat (replace_second_microsecond d)))
    by congruence.
  clear H. subst m. apply fromisoformat_valid in E.
  rewrite isoformat_minute_prefix.
  cbn [year month day hour minute replace_second_microsecond].
  rewrite replace_char_absent.
  - rewrite minute_text_parse by now apply valid_minute.
    cbn [rbind]. now rewrite isoformat_minute_prefix.
  - assert (Hsep : forall x, Ascii.eqb x "Z" = false ->
                             find_char "Z" (String x "") = None).
    { intros x Hx. cbn [find_char]. now rewrite Hx. }
    repeat (apply find_char_app_none;
            [first [now apply find_char_pad | now apply Hsep]|]).
    now apply find_char_pad.
Qed.



Lemma normalize_minute_stable_witness :
  normalize_minute "2024-03-01T10:07" = Ok "2024-03-01T10:07".
Proof.
  apply (normalize_minute_stable "2024-03-01 10:07:42.250+03:00").
  vm_compute. reflexivity.
Defined.



